(** * Database reset script: a shallow embedding of [backend/database/reset_db.py]

    The script drops the schema, re-runs the migrations, reloads the seed
    data, optionally provisions a test user with a sample portfolio, and
    prints the row counts of the tracked tables.

    The Python code talks to three collaborators: the raw SQL client
    ([DataAPIClient]), the table models ([Database]) and child processes
    ([subprocess.run]).  Each call is an operation on the persistent store
    that may raise.  Programs are written in a small monad that threads the
    store, collects the calls and console lines the script issues, and
    distinguishes a normal return, a raised exception and [sys.exit]. *)

From Stdlib Require Import QArith.
From stdpp Require Import base option list strings gmap.

Local Open Scope string_scope.
Local Open Scope Z_scope.
Local Open Scope list_scope.

(** ** Values *)

(** [decimal.Decimal]: exact decimal fractions, kept as rationals. *)
Definition Decimal : Type := Q.

(** Exceptions below Python's [Exception] class. *)
Inductive Exception : Type :=
| KeyError (key : string)
| ValidationError (model : string)
| DatabaseError (detail : string)
| OSError (detail : string).

(** What an operation of a collaborator hands back. *)
Inductive Result (A : Type) : Type :=
| Success (a : A)
| Failure (e : Exception).
Arguments Success {A} a.
Arguments Failure {A} e.

(** How a piece of the script ends: it returns, an exception escapes it,
    or [sys.exit(code)] was called ([SystemExit] is not an [Exception]). *)
Inductive Outcome (A : Type) : Type :=
| Returned (a : A)
| Raised (e : Exception)
| Exited (code : Z).
Arguments Returned {A} a.
Arguments Raised {A} e.
Arguments Exited {A} code.

(** The pydantic models of [src.schemas]; [model_dump] hands back the
    fields. *)
Record UserCreate : Type := {
  clerk_user_id : string;
  display_name : string;
  years_until_retirement : Z;
  target_retirement_income : Decimal }.

Record AccountCreate : Type := {
  account_name : string;
  account_purpose : string;
  cash_balance : Decimal;
  cash_interest : Decimal }.

Record PositionCreate (Id : Type) : Type := {
  account_id : Id;
  symbol : string;
  quantity : Decimal }.
Arguments account_id {Id} _.
Arguments symbol {Id} _.
Arguments quantity {Id} _.

(** A row of the accounts table as the models return it: [acc['id']],
    the owning user and the account's columns. *)
Record AccountRow (Id : Type) : Type := {
  id : Id;
  owner : string;
  columns : AccountCreate }.
Arguments id {Id} _.
Arguments owner {Id} _.
Arguments columns {Id} _.

(** ** Console lines *)

(** One constructor per [print] site of the script; formatted lines carry
    the values they interpolate. *)
Inductive Msg : Type :=
| MsgDroppingTables
| MsgDropped (table : string)
| MsgErrorDropping (table : string) (e : Exception)
| MsgDroppedFunction
| MsgErrorDroppingFunction (e : Exception)
| MsgCreatingTestUser
| MsgUserExists
| MsgCreatedUser
| MsgHasAccounts (n : nat)
| MsgCreatedAccount (name : string)
| MsgHasPositions (n : nat)
| MsgAddedPosition (quantity : Decimal) (symbol : string)
| MsgBanner
| MsgRule
| MsgRunningMigrations
| MsgMigrationFailed
| MsgText (text : string)
| MsgMigrationsCompleted
| MsgLoadingSeed
| MsgSeedFailed
| MsgLoaded22
| MsgSeedLoaded
| MsgFinalVerification
| MsgCount (table : string) (count : Z)
| MsgClosingRule
| MsgResetComplete
| MsgTestUserCreated
| MsgTestUserId
| MsgTestUserAccounts
| MsgTestUserPositions.

(** ** Calls and console output, in the order the script issues them *)

Inductive Event (Id : Type) : Type :=
| EvPrint (m : Msg)
| EvExecute (sql : string)
| EvQuery (sql : string)
| EvRun (cmd : list string)
| EvFindByClerkId (key : string)
| EvCreateUser (u : UserCreate)
| EvFindByUser (key : string)
| EvCreateAccount (key : string) (a : AccountCreate)
| EvFindByAccount (account : Id)
| EvAddPosition (p : PositionCreate Id).
Arguments EvPrint {Id} m.
Arguments EvExecute {Id} sql.
Arguments EvQuery {Id} sql.
Arguments EvRun {Id} cmd.
Arguments EvFindByClerkId {Id} key.
Arguments EvCreateUser {Id} u.
Arguments EvFindByUser {Id} key.
Arguments EvCreateAccount {Id} key a.
Arguments EvFindByAccount {Id} account.
Arguments EvAddPosition {Id} p.

(** [subprocess.CompletedProcess] with captured text output. *)
Record CompletedProcess : Type := {
  returncode : Z;
  stdout : string;
  stderr : string }.

(** Parsed command line. *)
Record Args : Type := {
  with_test_data : bool;
  skip_drop : bool }.

(** ** The script monad *)

(** The result of running a piece of the script from a store. *)
Record Run (S Id A : Type) : Type := {
  outcome : Outcome A;
  final : S;
  events : list (Event Id) }.
Arguments outcome {S Id A} _.
Arguments final {S Id A} _.
Arguments events {S Id A} _.
Arguments Build_Run {S Id A} _ _ _.

Section Script.
Context {S Id : Type}.

(** An operation of a collaborator on the store. *)
Definition Op (A : Type) : Type := S -> Result A * S.

Definition M (A : Type) : Type := S -> Run S Id A.

Definition ret {A} (a : A) : M A :=
  fun s => Build_Run (Returned a) s [].

Definition bind {A B} (m : M A) (k : A -> M B) : M B :=
  fun s =>
    let r := m s in
    match outcome r with
    | Returned a =>
        let r' := k a (final r) in
        Build_Run (outcome r') (final r') (events r ++ events r')
    | Raised e => Build_Run (Raised e) (final r) (events r)
    | Exited c => Build_Run (Exited c) (final r) (events r)
    end.

Definition raise {A} (e : Exception) : M A :=
  fun s => Build_Run (Raised e) s [].

(** [sys.exit(code)] *)
Definition sys_exit {A} (code : Z) : M A :=
  fun s => Build_Run (Exited code) s [].

(** [print(...)] *)
Definition print (m : Msg) : M unit :=
  fun s => Build_Run (Returned tt) s [EvPrint m].

(** A call to a collaborator, recorded under [ev]. *)
Definition call {A} (ev : Event Id) (op : Op A) : M A :=
  fun s =>
    match op s with
    | (Success a, s') => Build_Run (Returned a) s' [ev]
    | (Failure e, s') => Build_Run (Raised e) s' [ev]
    end.

(** The value of an expression that may raise. *)
Definition lift {A} (r : Result A) : M A :=
  match r with
  | Success a => ret a
  | Failure e => raise e
  end.

(** [try: body  except Exception as e: handler(e)] *)
Definition try_except {A} (body : M A) (handler : Exception -> M A) : M A :=
  fun s =>
    let r := body s in
    match outcome r with
    | Raised e =>
        let r' := handler e (final r) in
        Build_Run (outcome r') (final r') (events r ++ events r')
    | _ => r
    end.
End Script.

Arguments Op : clear implicits.
Arguments M : clear implicits.

Notation "x <- m ;; k" := (bind m (fun x => k))
  (at level 100, m at next level, right associativity).
Notation "m ;;; k" := (bind m (fun _ => k))
  (at level 100, right associativity).

Section Loops.
Context {S Id : Type}.

(** [for x in xs: body(x)] *)
Fixpoint for_each {A} (xs : list A) (body : A -> M S Id unit) : M S Id unit :=
  match xs with
  | [] => ret tt
  | x :: rest => body x ;;; for_each rest body
  end.

(** [for x in xs: acc.append(body(x))], starting from [acc]. *)
Fixpoint for_append {A B} (xs : list A) (body : A -> M S Id B) (acc : list B)
  : M S Id (list B) :=
  match xs with
  | [] => ret acc
  | x :: rest => b <- body x ;; for_append rest body (acc ++ [b])
  end.
End Loops.

(** ** The collaborators *)

(** [src.client.DataAPIClient] *)
Record DataAPIClient (S : Type) : Type := {
  execute : string -> Op S unit;
  query : string -> Op S (list (gmap string Z)) }.
Arguments execute {S} _ _.
Arguments query {S} _ _.

(** [src.models.Database]: the three table models the script uses. *)
Record Users (S : Type) : Type := {
  find_by_clerk_id : string -> Op S (option UserCreate);
  create_user : UserCreate -> Op S unit }.
Arguments find_by_clerk_id {S} _ _.
Arguments create_user {S} _ _.

Record Accounts (S Id : Type) : Type := {
  find_by_user : string -> Op S (list (AccountRow Id));
  create_account : string -> AccountCreate -> Op S Id }.
Arguments find_by_user {S Id} _ _.
Arguments create_account {S Id} _ _ _.

Record Positions (S Id : Type) : Type := {
  find_by_account : Id -> Op S (list (PositionCreate Id));
  add_position : PositionCreate Id -> Op S unit }.
Arguments find_by_account {S Id} _ _.
Arguments add_position {S Id} _ _.

Record Database (S Id : Type) : Type := {
  users : Users S;
  accounts : Accounts S Id;
  positions : Positions S Id }.
Arguments users {S Id} _.
Arguments accounts {S Id} _.
Arguments positions {S Id} _.

(** The field constraints the pydantic models declare. *)
Record Schemas (Id : Type) : Type := {
  user_ok : UserCreate -> bool;
  account_ok : AccountCreate -> bool;
  position_ok : PositionCreate Id -> bool }.
Arguments user_ok {Id} _ _.
Arguments account_ok {Id} _ _.
Arguments position_ok {Id} _ _.

(** [subprocess.run(cmd, capture_output=True, text=True)] *)
Definition Subprocess (S : Type) : Type := list string -> Op S CompletedProcess.

(** ** [drop_all_tables] *)

Section DropAllTables.
Context {S Id : Type}.

Definition tables_to_drop : list string :=
  ["positions"; "accounts"; "jobs"; "instruments"; "users"].

Definition drop_table_sql (table : string) : string :=
  "DROP TABLE IF EXISTS " +:+ table +:+ " CASCADE".

Definition drop_function_sql : string :=
  "DROP FUNCTION IF EXISTS update_updated_at_column() CASCADE".

Definition drop_all_tables (db : DataAPIClient S) : M S Id unit :=
  print MsgDroppingTables ;;;
  for_each tables_to_drop (fun table =>
    try_except
      (call (EvExecute (drop_table_sql table)) (execute db (drop_table_sql table)) ;;;
       print (MsgDropped table))
      (fun e => print (MsgErrorDropping table e))) ;;;
  try_except
    (call (EvExecute drop_function_sql) (execute db drop_function_sql) ;;;
     print MsgDroppedFunction)
    (fun e => print (MsgErrorDroppingFunction e)).
End DropAllTables.

(** ** [create_test_data] *)

Section CreateTestData.
Context {S Id : Type}.

(** Building a pydantic model validates its fields and raises
    [ValidationError] when a declared constraint fails. *)
Definition construct {A} (ok : A -> bool) (model : string) (fields : A)
  : M S Id A :=
  if ok fields then ret fields else raise (ValidationError model).

Definition user_data : UserCreate :=
  {| clerk_user_id := "test_user_001";
     display_name := "Test User";
     years_until_retirement := 25;
     target_retirement_income := 100000 # 1 |}.

Definition account_401k : AccountCreate :=
  {| account_name := "401(k)";
     account_purpose := "Primary retirement savings";
     cash_balance := 5000 # 1;
     cash_interest := 45 # 1000 |}.

Definition account_roth : AccountCreate :=
  {| account_name := "Roth IRA";
     account_purpose := "Tax-free retirement savings";
     cash_balance := 1000 # 1;
     cash_interest := 4 # 100 |}.

Definition account_taxable : AccountCreate :=
  {| account_name := "Taxable Brokerage";
     account_purpose := "General investment account";
     cash_balance := 2500 # 1;
     cash_interest := 35 # 1000 |}.

Definition test_accounts : list AccountCreate :=
  [account_401k; account_roth; account_taxable].

Definition test_positions : list (string * Decimal) :=
  [("SPY", 100 # 1); ("QQQ", 50 # 1); ("BND", 200 # 1);
   ("VEA", 150 # 1); ("GLD", 25 # 1)].

Variable sch : Schemas Id.
Variable db_models : Database S Id.

(** Lines 46-69: the test user. *)
Definition provision_user : M S Id unit :=
  print MsgCreatingTestUser ;;;
  user_data <- construct (user_ok sch) "UserCreate" user_data ;;
  existing <- call (EvFindByClerkId "test_user_001")
                   (find_by_clerk_id (users db_models) "test_user_001") ;;
  match existing with
  | Some _ => print MsgUserExists
  | None =>
      let validated := user_data in
      let row :=
        {| clerk_user_id := clerk_user_id validated;
           display_name := display_name validated;
           years_until_retirement := years_until_retirement validated;
           target_retirement_income := target_retirement_income validated |} in
      call (EvCreateUser row) (create_user (users db_models) row) ;;;
      print MsgCreatedUser
  end.

(** Lines 71-110: the accounts; returns [account_ids]. *)
Definition provision_accounts : M S Id (list Id) :=
  accounts_list <- for_append test_accounts
                     (construct (account_ok sch) "AccountCreate") [] ;;
  user_accounts <- call (EvFindByUser "test_user_001")
                        (find_by_user (accounts db_models) "test_user_001") ;;
  match user_accounts with
  | _ :: _ =>
      print (MsgHasAccounts (length user_accounts)) ;;;
      ret (map id user_accounts)
  | [] =>
      for_append accounts_list (fun acc_data =>
        let validated := acc_data in
        let row :=
          {| account_name := account_name validated;
             account_purpose := account_purpose validated;
             cash_balance := cash_balance validated;
             cash_interest := cash_interest validated |} in
        acc_id <- call (EvCreateAccount "test_user_001" row)
                       (create_account (accounts db_models) "test_user_001" row) ;;
        print (MsgCreatedAccount (account_name validated)) ;;;
        ret acc_id) []
  end.

(** Lines 112-141: the positions of the first account. *)
Definition provision_positions (account_ids : list Id) : M S Id unit :=
  match account_ids with
  | [] => ret tt
  | account_id0 :: _ =>
      existing_positions <- call (EvFindByAccount account_id0)
                                 (find_by_account (positions db_models) account_id0) ;;
      match existing_positions with
      | _ :: _ => print (MsgHasPositions (length existing_positions))
      | [] =>
          for_each test_positions (fun '(symbol0, quantity0) =>
            position <- construct (position_ok sch) "PositionCreate"
                          {| account_id := account_id0;
                             symbol := symbol0;
                             quantity := quantity0 |} ;;
            let validated := position in
            let row :=
              {| account_id := account_id validated;
                 symbol := symbol validated;
                 quantity := quantity validated |} in
            call (EvAddPosition row) (add_position (positions db_models) row) ;;;
            print (MsgAddedPosition quantity0 symbol0))
      end
  end.

Definition create_test_data : M S Id unit :=
  provision_user ;;;
  account_ids <- provision_accounts ;;
  provision_positions account_ids.
End CreateTestData.

(** ** [main] *)

(** [needle in haystack] on [str]. *)
Fixpoint str_in (needle haystack : string) : bool :=
  String.prefix needle haystack ||
  match haystack with
  | EmptyString => false
  | String _ rest => str_in needle rest
  end.

(** [result[0]['count'] if result else 0] *)
Definition first_count (result : list (gmap string Z)) : Result Z :=
  match result with
  | row :: _ =>
      match row !! "count" with
      | Some c => Success c
      | None => Failure (KeyError "count")
      end
  | [] => Success 0
  end.

Section Main.
Context {S Id : Type}.

Definition migrate_cmd : list string := ["uv"; "run"; "run_migrations.py"].
Definition seed_cmd : list string := ["uv"; "run"; "seed_data.py"].

Definition tables : list string :=
  ["users"; "instruments"; "accounts"; "positions"; "jobs"].

Definition count_sql (table : string) : string :=
  "SELECT COUNT(*) as count FROM " +:+ table.

Variable os : Subprocess S.
Variable db : DataAPIClient S.
Variable db_models : Database S Id.
Variable sch : Schemas Id.

(** Lines 159-174: teardown and migrations, unless [--skip-drop]. *)
Definition drop_and_migrate (args : Args) : M S Id unit :=
  if negb (skip_drop args) then
    drop_all_tables db ;;;
    print MsgRunningMigrations ;;;
    result <- call (EvRun migrate_cmd) (os migrate_cmd) ;;
    if decide (returncode result ≠ 0) then
      print MsgMigrationFailed ;;;
      print (MsgText (stderr result)) ;;;
      sys_exit 1
    else
      print MsgMigrationsCompleted
  else ret tt.

(** Lines 176-191: the seed data. *)
Definition load_seed_data : M S Id unit :=
  print MsgLoadingSeed ;;;
  result <- call (EvRun seed_cmd) (os seed_cmd) ;;
  if decide (returncode result ≠ 0) then
    print MsgSeedFailed ;;;
    print (MsgText (stderr result)) ;;;
    sys_exit 1
  else
    if str_in "22/22 instruments loaded" (stdout result)
    then print MsgLoaded22
    else print MsgSeedLoaded.

(** Lines 197-205: the record counts. *)
Definition final_verification : M S Id unit :=
  print MsgFinalVerification ;;;
  for_each tables (fun table =>
    result <- call (EvQuery (count_sql table)) (query db (count_sql table)) ;;
    count <- lift (first_count result) ;;
    print (MsgCount table count)).

(** Lines 152-214: [main] from its banner on.  The command line is
    already parsed into [args] ([argparse], lines 145-150) and the SQL
    client [db] and the table models [db_models] are already built (the
    two constructors of lines 156-157). *)
Definition main (args : Args) : M S Id unit :=
  print MsgBanner ;;;
  print MsgRule ;;;
  drop_and_migrate args ;;;
  load_seed_data ;;;
  (if with_test_data args then create_test_data sch db_models else ret tt) ;;;
  final_verification ;;;
  print MsgClosingRule ;;;
  print MsgResetComplete ;;;
  if with_test_data args then
    print MsgTestUserCreated ;;;
    print MsgTestUserId ;;;
    print MsgTestUserAccounts ;;;
    print MsgTestUserPositions
  else ret tt.
End Main.

(** ** A reference store *)

(** The table models ([src.models]) and the pydantic schemas
    ([src.schemas]) are imported by the script but are not part of the
    sources at hand.  The definitions below model them from the
    specification's data model. *)
Module Store.

(** Modelled from the spec: the persistent store behind [src.models],
    whose code is missing.  Three tables kept in insertion order; account
    identifiers are generated by the store. *)
Record t : Type := {
  users_table : list UserCreate;
  accounts_table : list (AccountRow nat);
  positions_table : list (PositionCreate nat);
  next_id : nat }.

Definition empty (n : nat) : t :=
  {| users_table := []; accounts_table := []; positions_table := [];
     next_id := n |}.

Definition users_of (key : string) (s : t) : list UserCreate :=
  filter (λ u, clerk_user_id u = key) (users_table s).

Definition accounts_of (key : string) (s : t) : list (AccountRow nat) :=
  filter (λ a, owner a = key) (accounts_table s).

Definition account_rows (account : nat) (s : t) : list (AccountRow nat) :=
  filter (λ a, id a = account) (accounts_table s).

Definition positions_of (account : nat) (s : t) : list (PositionCreate nat) :=
  filter (λ p, account_id p = account) (positions_table s).

(** The three inserts. *)
Definition insert_user (u : UserCreate) (s : t) : t :=
  {| users_table := users_table s ++ [u];
     accounts_table := accounts_table s;
     positions_table := positions_table s;
     next_id := next_id s |}.

Definition insert_account (key : string) (a : AccountCreate) (s : t) : t :=
  {| users_table := users_table s;
     accounts_table :=
       accounts_table s ++ [{| id := next_id s; owner := key; columns := a |}];
     positions_table := positions_table s;
     next_id := Datatypes.S (next_id s) |}.

Definition insert_position (p : PositionCreate nat) (s : t) : t :=
  {| users_table := users_table s;
     accounts_table := accounts_table s;
     positions_table := positions_table s ++ [p];
     next_id := next_id s |}.

(** Modelled from the spec: [Users.find_by_clerk_id] of the missing
    [src.models], "look up an existing identity by natural key". *)
Definition find_by_clerk_id (key : string) : Op t (option UserCreate) :=
  fun s => (Success (head (users_of key s)), s).

(** Modelled from the spec: [Users.create_user] of the missing
    [src.models]; an insert under "natural key uniqueness for Identity". *)
Definition create_user (u : UserCreate) : Op t unit :=
  fun s =>
    match users_of (clerk_user_id u) s with
    | [] => (Success tt, insert_user u s)
    | _ :: _ => (Failure (DatabaseError "users_pkey"), s)
    end.

(** Modelled from the spec: [Accounts.find_by_user] of the missing
    [src.models], "look up existing accounts belonging to the identity";
    rows come back in insertion order. *)
Definition find_by_user (key : string) : Op t (list (AccountRow nat)) :=
  fun s => (Success (accounts_of key s), s).

(** Modelled from the spec: [Accounts.create_account] of the missing
    [src.models]; an insert that hands back the generated identifier,
    under "Account.owner must reference rows that already exist". *)
Definition create_account (key : string) (a : AccountCreate) : Op t nat :=
  fun s =>
    match users_of key s with
    | [] => (Failure (DatabaseError "accounts_clerk_user_id_fkey"), s)
    | _ :: _ => (Success (next_id s), insert_account key a s)
    end.

(** Modelled from the spec: [Positions.find_by_account] of the missing
    [src.models], "look up existing positions for that account". *)
Definition find_by_account (account : nat) : Op t (list (PositionCreate nat)) :=
  fun s => (Success (positions_of account s), s).

(** Modelled from the spec: [Positions.add_position] of the missing
    [src.models]; an insert under "Position.account must reference rows
    that already exist". *)
Definition add_position (p : PositionCreate nat) : Op t unit :=
  fun s =>
    match account_rows (account_id p) s with
    | [] => (Failure (DatabaseError "positions_account_id_fkey"), s)
    | _ :: _ => (Success tt, insert_position p s)
    end.

Definition db_models : Database t nat :=
  Build_Database t nat
    (Build_Users t find_by_clerk_id create_user)
    (Build_Accounts t nat find_by_user create_account)
    (Build_Positions t nat find_by_account add_position).

(** Modelled from the spec: [Accounts.find_by_user] of the missing
    [src.models] with the order of its rows left open.  The data model
    speaks of the "set" of accounts of an identity and fixes no order for
    the lookup; [listing] is how the lookup arranges the rows it hands
    over.  [find_by_user] is the lookup in insertion order. *)
Definition find_by_user_listed
    (listing : list (AccountRow nat) -> list (AccountRow nat))
    (key : string) : Op t (list (AccountRow nat)) :=
  fun s => (Success (listing (accounts_of key s)), s).

Definition db_models_listed
    (listing : list (AccountRow nat) -> list (AccountRow nat)) : Database t nat :=
  Build_Database t nat
    (Build_Users t find_by_clerk_id create_user)
    (Build_Accounts t nat (find_by_user_listed listing) create_account)
    (Build_Positions t nat find_by_account add_position).

(** A lookup order that hands over the account inserted first at the
    head. *)
Definition oldest_first
    (listing : list (AccountRow nat) -> list (AccountRow nat)) : Prop :=
  forall rows, head (listing rows) = head rows.

(** Modelled from the spec: the constraints of the missing [src.schemas]:
    years until retirement in an integer range, whose bounds the data
    model leaves open and which are taken as [years_min] and [years_max];
    target income and cash balance not negative; interest rate within
    [0, 1]; quantity above zero. *)
Definition schemas (years_min years_max : Z) : Schemas nat :=
  {| user_ok := fun u =>
       bool_decide (years_min ≤ years_until_retirement u ≤ years_max)
       && Qle_bool 0 (target_retirement_income u);
     account_ok := fun a =>
       Qle_bool 0 (cash_balance a)
       && Qle_bool 0 (cash_interest a) && Qle_bool (cash_interest a) 1;
     position_ok := fun p => negb (Qle_bool (quantity p) 0) |}.

End Store.

(** * Specification vocabulary *)

(** Projections of a trace. *)
Section Traces.
Context {Id : Type}.

(** The SQL statements handed to [db.execute]. *)
Definition executed (evs : list (Event Id)) : list string :=
  omap (fun ev => match ev with EvExecute sql => Some sql | _ => None end) evs.

(** Calls that write to the store or start a process. *)
Definition is_mutation (ev : Event Id) : bool :=
  match ev with
  | EvExecute _ | EvRun _ | EvCreateUser _ | EvCreateAccount _ _
  | EvAddPosition _ => true
  | _ => false
  end.

(** Rows the table models were asked to insert. *)
Definition is_insert (ev : Event Id) : bool :=
  match ev with
  | EvCreateUser _ | EvCreateAccount _ _ | EvAddPosition _ => true
  | _ => false
  end.

(** Calls to the table models, made by [create_test_data] only. *)
Definition is_model_call (ev : Event Id) : bool :=
  match ev with
  | EvFindByClerkId _ | EvCreateUser _ | EvFindByUser _
  | EvCreateAccount _ _ | EvFindByAccount _ | EvAddPosition _ => true
  | _ => false
  end.
End Traces.

(** ** Schema teardown *)

Section TeardownLog.
Context {S Id : Type}.
Variable db : DataAPIClient S.

(** What a teardown step is about: a table, or the trigger function. *)
Definition drop_subjects : list (option string) :=
  map Some tables_to_drop ++ [None].

Definition subject_sql (subject : option string) : string :=
  match subject with
  | Some table => drop_table_sql table
  | None => drop_function_sql
  end.

Definition subject_dropped (subject : option string) : Msg :=
  match subject with
  | Some table => MsgDropped table
  | None => MsgDroppedFunction
  end.

Definition subject_error (subject : option string) (e : Exception) : Msg :=
  match subject with
  | Some table => MsgErrorDropping table e
  | None => MsgErrorDroppingFunction e
  end.

(** [teardown_log s subjects evs s']: from store [s], one drop statement
    per subject was issued in order; each was followed by its own status
    line, the error line carrying the exception the statement raised; the
    store ended as [s']. *)
Inductive teardown_log : S -> list (option string) -> list (Event Id) -> S -> Prop :=
| teardown_done s : teardown_log s [] [] s
| teardown_dropped s subject rest evs s1 s2 :
    execute db (subject_sql subject) s = (Success tt, s1) ->
    teardown_log s1 rest evs s2 ->
    teardown_log s (subject :: rest)
      (EvExecute (subject_sql subject) :: EvPrint (subject_dropped subject) :: evs) s2
| teardown_failed s subject e rest evs s1 s2 :
    execute db (subject_sql subject) s = (Failure e, s1) ->
    teardown_log s1 rest evs s2 ->
    teardown_log s (subject :: rest)
      (EvExecute (subject_sql subject) :: EvPrint (subject_error subject e) :: evs) s2.

(** One guarded statement of [drop_all_tables]. *)
Definition guarded_drop (subject : option string) : M S Id unit :=
  try_except
    (call (EvExecute (subject_sql subject)) (execute db (subject_sql subject)) ;;;
     print (subject_dropped subject))
    (fun e => print (subject_error subject e)).
End TeardownLog.

(** ** What a script can emit *)

Section EmitsDef.
Context {S Id : Type}.

Definition is_print (ev : Event Id) : bool :=
  match ev with EvPrint _ => true | _ => false end.

Definition is_execute (ev : Event Id) : bool :=
  match ev with EvExecute _ => true | _ => false end.

Definition is_query (ev : Event Id) : bool :=
  match ev with EvQuery _ => true | _ => false end.

Definition is_run (ev : Event Id) : bool :=
  match ev with EvRun _ => true | _ => false end.

(** [emits P m]: whatever the store, every call and line of [m]
    satisfies [P]. *)
Definition emits {A} (P : Event Id -> Prop) (m : M S Id A) : Prop :=
  forall s, Forall P (events (m s)).
End EmitsDef.

(** ** The record counts *)

Section CountLog.
Context {S Id : Type}.
Variable db : DataAPIClient S.

(** [count_log s tables evs o s']: from store [s], one count query per
    table was issued in order.  A query that answered was followed by the
    line with its count (0 for an empty result); a query that raised, or
    whose first row has no count, ended the step with that exception.
    [o] is how the step ended and [s'] the store it left. *)
Inductive count_log :
  S -> list string -> list (Event Id) -> Outcome unit -> S -> Prop :=
| count_done s : count_log s [] [] (Returned tt) s
| count_line s table rest result c s1 evs o s2 :
    query db (count_sql table) s = (Success result, s1) ->
    first_count result = Success c ->
    count_log s1 rest evs o s2 ->
    count_log s (table :: rest)
      (EvQuery (count_sql table) :: EvPrint (MsgCount table c) :: evs) o s2
| count_query_raised s table rest e s1 :
    query db (count_sql table) s = (Failure e, s1) ->
    count_log s (table :: rest) [EvQuery (count_sql table)] (Raised e) s1
| count_row_raised s table rest result e s1 :
    query db (count_sql table) s = (Success result, s1) ->
    first_count result = Failure e ->
    count_log s (table :: rest) [EvQuery (count_sql table)] (Raised e) s1.

Definition count_line_of (table : string) : M S Id unit :=
  result <- call (EvQuery (count_sql table)) (query db (count_sql table)) ;;
  count <- lift (first_count result) ;;
  print (MsgCount table count).

(** [counts_answer tables s]: issued in order, the first from store [s]
    and each next one from the store the one before left, every count
    query of [tables] answers, with no row or with a first row that has
    a count. *)
Fixpoint counts_answer (tables : list string) (s : S) : Prop :=
  match tables with
  | [] => True
  | table :: rest =>
      match query db (count_sql table) s with
      | (Success [], s1) => counts_answer rest s1
      | (Success (row :: _), s1) =>
          is_Some (row !! "count") /\ counts_answer rest s1
      | (Failure _, _) => False
      end
  end.
End CountLog.

(** ** The seed summary line *)

Section SummaryLine.
Context {S Id : Type}.

(** The child processes of [os], their captured stdout replaced by [out]. *)
Definition with_stdout (out : string) (os : Subprocess S) : Subprocess S :=
  fun cmd s =>
    match os cmd s with
    | (Success cp, s') =>
        (Success {| returncode := returncode cp; stdout := out; stderr := stderr cp |}, s')
    | (Failure e, s') => (Failure e, s')
    end.

(** The trace with the friendlier summary line turned into the plain one. *)
Definition plain_summary (ev : Event Id) : Event Id :=
  match ev with
  | EvPrint MsgLoaded22 => EvPrint MsgSeedLoaded
  | _ => ev
  end.

(** Two runs that differ in the summary line at most. *)
Definition same_but_summary {A} (r' r : Run S Id A) : Prop :=
  outcome r' = outcome r /\ final r' = final r /\
  events r' = map plain_summary (events r).
End SummaryLine.

(** ** The orchestrator *)

Section MainSteps.
Context {S Id : Type}.
Variable os : Subprocess S.
Variable db : DataAPIClient S.
Variable db_models : Database S Id.
Variable sch : Schemas Id.

(** What [main] does before the record counts (lines 152-195). *)
Definition before_verification (args : Args) : M S Id unit :=
  print MsgBanner ;;;
  print MsgRule ;;;
  drop_and_migrate os db args ;;;
  load_seed_data os ;;;
  (if with_test_data args then create_test_data sch db_models else ret tt).
End MainSteps.

(** ** The fixture *)

Section FixtureSteps.
Context {S Id : Type}.
Variable sch : Schemas Id.
Variable db_models : Database S Id.

(** The steps before the positions. *)
Definition provision_owner : M S Id (list Id) :=
  provision_user sch db_models ;;; provision_accounts sch db_models.
End FixtureSteps.

(** The fixture rows the reference store ends up with. *)

(** The store after the three accounts were created. *)
Definition with_test_accounts (s : Store.t) : Store.t :=
  Store.insert_account "test_user_001" account_taxable
    (Store.insert_account "test_user_001" account_roth
       (Store.insert_account "test_user_001" account_401k s)).

(** A predefined position placed in account [a]. *)
Definition test_position (a : nat) (sq : string * Decimal) : PositionCreate nat :=
  {| account_id := a; symbol := sq.1; quantity := sq.2 |}.

(** The store after the five positions were added to account [a]. *)
Definition with_test_positions (a : nat) (s : Store.t) : Store.t :=
  foldl (fun st sq => Store.insert_position (test_position a sq) st) s test_positions.

(** ** Counting and ordering calls *)

Section MoreTraces.
Context {Id : Type}.

Definition is_create_user (ev : Event Id) : bool :=
  match ev with EvCreateUser _ => true | _ => false end.

Definition is_create_account (ev : Event Id) : bool :=
  match ev with EvCreateAccount _ _ => true | _ => false end.

Definition is_add_position (ev : Event Id) : bool :=
  match ev with EvAddPosition _ => true | _ => false end.

(** The progress lines of [create_test_data]. *)
Definition is_fixture_line (ev : Event Id) : bool :=
  match ev with
  | EvPrint (MsgCreatingTestUser | MsgUserExists | MsgCreatedUser
            | MsgHasAccounts _ | MsgCreatedAccount _
            | MsgHasPositions _ | MsgAddedPosition _ _) => true
  | _ => false
  end.

(** The four lines on the test user that close a run with
    [--with-test-data]. *)
Definition is_test_user_summary (ev : Event Id) : bool :=
  match ev with
  | EvPrint (MsgTestUserCreated | MsgTestUserId
            | MsgTestUserAccounts | MsgTestUserPositions) => true
  | _ => false
  end.

(** The child processes started, in order. *)
Definition launched (evs : list (Event Id)) : list (list string) :=
  omap (fun ev => match ev with EvRun cmd => Some cmd | _ => None end) evs.

(** How many calls of a kind a trace holds. *)
Definition how_many (kind : Event Id -> bool) (evs : list (Event Id)) : nat :=
  length (List.filter kind evs).
End MoreTraces.

Section MoreSteps.
Context {S Id : Type}.
Variable os : Subprocess S.
Variable db : DataAPIClient S.

(** A script that never ends in [sys.exit]. *)
Definition never_exits {A} (m : M S Id A) : Prop :=
  forall s c, outcome (m s) <> Exited c.

(** What [main] does before the seed data (lines 152-174). *)
Definition before_seed (args : Args) : M S Id unit :=
  print MsgBanner ;;;
  print MsgRule ;;;
  drop_and_migrate os db args.

(** What [main] does before the test data (lines 152-191). *)
Definition before_fixture (args : Args) : M S Id unit :=
  print MsgBanner ;;;
  print MsgRule ;;;
  drop_and_migrate os db args ;;;
  load_seed_data os.

Variable db_models : Database S Id.
Variable sch : Schemas Id.

(** The last lines of [main] (lines 207-214). *)
Definition closing_lines (args : Args) : M S Id unit :=
  print MsgClosingRule ;;;
  print MsgResetComplete ;;;
  if with_test_data args then
    print MsgTestUserCreated ;;;
    print MsgTestUserId ;;;
    print MsgTestUserAccounts ;;;
    print MsgTestUserPositions
  else ret tt.

(** [main] from the test data on (lines 193-214). *)
Definition fixture_onwards (args : Args) : M S Id unit :=
  (if with_test_data args then create_test_data sch db_models else ret tt) ;;;
  final_verification db ;;;
  closing_lines args.

(** [main] from the seed data on (lines 176-214). *)
Definition seed_onwards (args : Args) : M S Id unit :=
  load_seed_data os ;;; fixture_onwards args.
End MoreSteps.

(** * Scenarios *)

(** Concrete collaborators and stores on which the statements below are
    exercised. *)
Module Scenario.

(** A database with its schema in place: statements go through and a
    count query answers with the size of the table it names. *)
Definition count_rows (sql : string) (s : Store.t) : Z :=
  if decide (sql = count_sql "users") then Z.of_nat (length (Store.users_table s))
  else if decide (sql = count_sql "accounts") then Z.of_nat (length (Store.accounts_table s))
  else if decide (sql = count_sql "positions") then Z.of_nat (length (Store.positions_table s))
  else 0.

Definition client : DataAPIClient Store.t :=
  Build_DataAPIClient Store.t
    (fun _ s => (Success tt, s))
    (fun sql s => (Success [{[ "count" := count_rows sql s ]}], s)).

(** A database without the schema: a count query raises. *)
Definition client_without_schema : DataAPIClient Store.t :=
  Build_DataAPIClient Store.t
    (fun _ s => (Success tt, s))
    (fun _ s => (Failure (DatabaseError "relation does not exist"), s)).

(** Child processes that all succeed; the loader reports its count. *)
Definition os_ok : Subprocess Store.t :=
  fun _ s =>
    (Success {| returncode := 0;
                stdout := "22/22 instruments loaded";
                stderr := "" |}, s).

(** The migrations exit with status 1. *)
Definition os_failed_migration : Subprocess Store.t :=
  fun cmd s =>
    if decide (cmd = migrate_cmd)
    then (Success {| returncode := 1;
                     stdout := "";
                     stderr := "migration 001 failed" |}, s)
    else os_ok cmd s.

(** The test user with a single one of its three accounts, as an
    interrupted earlier run would leave it. *)
Definition partial_store : Store.t :=
  {| Store.users_table := [user_data];
     Store.accounts_table :=
       [{| id := 0%nat; owner := "test_user_001"; columns := account_401k |}];
     Store.positions_table := [];
     Store.next_id := 1%nat |}.

(** A lookup that lists the newest account first. *)
Definition newest_first (rows : list (AccountRow nat)) : list (AccountRow nat) :=
  rev rows.

(** A lookup that lists the oldest account first and the others newest
    first. *)
Definition oldest_then_newest (rows : list (AccountRow nat))
  : list (AccountRow nat) :=
  match rows with
  | [] => []
  | row :: rest => row :: rev rest
  end.

Definition full_reset : Args := {| with_test_data := true; skip_drop := false |}.
Definition reload_only : Args := {| with_test_data := true; skip_drop := true |}.

End Scenario.

(** Further collaborators. *)
Module Cases.

(** The loader exits with status 2 after the migrations went through. *)
Definition os_failed_seed : Subprocess Store.t :=
  fun cmd s =>
    if decide (cmd = seed_cmd)
    then (Success {| returncode := 2;
                     stdout := "";
                     stderr := "instruments.json not found" |}, s)
    else Scenario.os_ok cmd s.

(** [uv] is not installed: starting a child process raises. *)
Definition os_without_uv : Subprocess Store.t :=
  fun _ s => (Failure (OSError "No such file or directory: uv"), s).

(** The table models are unreachable: every call raises. *)
Definition models_down : Database Store.t nat :=
  Build_Database Store.t nat
    (Build_Users Store.t
       (fun _ s => (Failure (DatabaseError "connection refused"), s))
       (fun _ s => (Failure (DatabaseError "connection refused"), s)))
    (Build_Accounts Store.t nat
       (fun _ s => (Failure (DatabaseError "connection refused"), s))
       (fun _ _ s => (Failure (DatabaseError "connection refused"), s)))
    (Build_Positions Store.t nat
       (fun _ s => (Failure (DatabaseError "connection refused"), s))
       (fun _ s => (Failure (DatabaseError "connection refused"), s))).

(** A database whose count queries answer with a row that lacks the count
    column. *)
Definition client_without_count : DataAPIClient Store.t :=
  Build_DataAPIClient Store.t
    (fun _ s => (Success tt, s))
    (fun _ s => (Success [{[ "total" := 3 ]}], s)).

(** The test user with its three accounts and a single position in the
    first of them. *)
Definition store_with_one_position : Store.t :=
  Store.insert_position (test_position 0 ("SPY", 1 # 1))
    (with_test_accounts (Store.insert_user user_data (Store.empty 0))).

Definition no_test_data : Args := {| with_test_data := false; skip_drop := false |}.

(** Schemas that cap the interest rate of an account at 4%: the 401(k)
    account, at 4.5%, does not pass. *)
Definition low_rate_schemas : Schemas nat :=
  {| user_ok := fun _ => true;
     account_ok := fun a => Qle_bool (cash_interest a) (4 # 100);
     position_ok := fun _ => true |}.

End Cases.

(** * Properties *)

(** ** Running composed scripts *)

Section RunLemmas.
Context {S Id : Type}.
Implicit Types s : S.

Lemma bind_returned {A B} (m : M S Id A) (k : A -> M S Id B) s a :
  outcome (m s) = Returned a ->
  bind m k s =
  Build_Run (outcome (k a (final (m s)))) (final (k a (final (m s))))
            (events (m s) ++ events (k a (final (m s)))).
Proof. intros H. unfold bind. now rewrite H. Qed.

Lemma bind_raised {A B} (m : M S Id A) (k : A -> M S Id B) s e :
  outcome (m s) = Raised e ->
  bind m k s = Build_Run (Raised e) (final (m s)) (events (m s)).
Proof. intros H. unfold bind. now rewrite H. Qed.

Lemma bind_exited {A B} (m : M S Id A) (k : A -> M S Id B) s c :
  outcome (m s) = Exited c ->
  bind m k s = Build_Run (Exited c) (final (m s)) (events (m s)).
Proof. intros H. unfold bind. now rewrite H. Qed.

(** The calls and lines of the first part come first, whatever follows. *)
Lemma bind_events_prefix {A B} (m : M S Id A) (k : A -> M S Id B) s :
  exists rest, events (bind m k s) = events (m s) ++ rest.
Proof.
  unfold bind. destruct (outcome (m s)); simpl.
  - eauto.
  - exists []. now rewrite app_nil_r.
  - exists []. now rewrite app_nil_r.
Qed.

Lemma call_success {A} (ev : Event Id) (op : Op S A) s a s' :
  op s = (Success a, s') ->
  call ev op s = Build_Run (Returned a) s' [ev].
Proof. intros H. unfold call. now rewrite H. Qed.

Lemma call_failure {A} (ev : Event Id) (op : Op S A) s e s' :
  op s = (Failure e, s') ->
  call ev op s = Build_Run (Raised e) s' [ev].
Proof. intros H. unfold call. now rewrite H. Qed.

Lemma outcome_bind {A B} (m : M S Id A) (k : A -> M S Id B) s :
  outcome (bind m k s) =
  match outcome (m s) with
  | Returned a => outcome (k a (final (m s)))
  | Raised e => Raised e
  | Exited c => Exited c
  end.
Proof. unfold bind. now destruct (outcome (m s)). Qed.

Lemma final_bind {A B} (m : M S Id A) (k : A -> M S Id B) s :
  final (bind m k s) =
  match outcome (m s) with
  | Returned a => final (k a (final (m s)))
  | _ => final (m s)
  end.
Proof. unfold bind. now destruct (outcome (m s)). Qed.

(** Sequencing two runs that are known. *)
Lemma run_bind {A B} (m : M S Id A) (k : A -> M S Id B) s a s1 evs o s2 evs2 :
  m s = Build_Run (Returned a) s1 evs ->
  k a s1 = Build_Run o s2 evs2 ->
  bind m k s = Build_Run o s2 (evs ++ evs2).
Proof. intros Hm Hk. unfold bind. rewrite Hm. cbn. now rewrite Hk. Qed.

Lemma call_events {A} (ev : Event Id) (op : Op S A) s :
  events (call ev op s) = [ev].
Proof. unfold call. now destruct (op s) as [[a|e] s']. Qed.
End RunLemmas.


(** ** Schema teardown *)

Section Teardown.
Context {S Id : Type}.
Variable db : DataAPIClient S.

Lemma guarded_drop_run subject rest (evs : list (Event Id)) s s2 :
  teardown_log db (final (guarded_drop (Id := Id) db subject s)) rest evs s2 ->
  outcome (guarded_drop (Id := Id) db subject s) = Returned tt /\
  teardown_log db s (subject :: rest)
    (events (guarded_drop (Id := Id) db subject s) ++ evs) s2.
Proof.
  unfold guarded_drop, try_except, bind, call, print.
  destruct (execute db (subject_sql subject) s) as [[[]|e] s1] eqn:E; simpl;
    intros H; split; trivial.
  - now apply teardown_dropped with s1.
  - now apply teardown_failed with s1.
Qed.

Lemma teardown_log_executed s subjects evs s' :
  teardown_log (Id := Id) db s subjects evs s' ->
  executed evs = map subject_sql subjects.
Proof. induction 1; simpl; unfold executed in *; simpl; congruence. Qed.
End Teardown.

Section TeardownTotal.
Context {S Id : Type}.
Variable db : DataAPIClient S.

Lemma drop_all_tables_steps :
  drop_all_tables (Id := Id) db =
  (print MsgDroppingTables ;;;
   for_each tables_to_drop (fun table => guarded_drop db (Some table)) ;;;
   guarded_drop db None).
Proof. reflexivity. Qed.

Lemma drop_loop_run (ts : list string) (s : S) :
  let r := for_each (Id := Id) ts (fun table => guarded_drop db (Some table)) s in
  outcome r = Returned tt /\
  forall rest evs s2,
    teardown_log db (final r) rest evs s2 ->
    teardown_log db s (map Some ts ++ rest) (events r ++ evs) s2.
Proof.
  revert s. induction ts as [|t ts IH]; intros s; simpl.
  - split; trivial.
  - set (one := guarded_drop (Id := Id) db (Some t) s).
    destruct (IH (final one)) as [Hout Hlog].
    assert (Hone : outcome one = Returned tt).
    { apply (guarded_drop_run db (Some t) [] [] s (final one)), teardown_done. }
    unfold bind. fold one. rewrite Hone. simpl. split; trivial.
    intros rest evs s2 H. rewrite <- app_assoc.
    apply guarded_drop_run, Hlog, H.
Qed.

Lemma drop_all_tables_run (s : S) :
  let r := drop_all_tables (Id := Id) db s in
  outcome r = Returned tt /\
  exists evs,
    events r = EvPrint MsgDroppingTables :: evs /\
    teardown_log db s drop_subjects evs (final r).
Proof.
  rewrite drop_all_tables_steps.
  set (loop := for_each (Id := Id) tables_to_drop
                 (fun table => guarded_drop db (Some table)) s).
  destruct (drop_loop_run tables_to_drop s) as [Hloop Hlog].
  fold loop in Hloop, Hlog.
  set (fn := guarded_drop (Id := Id) db None (final loop)).
  destruct (guarded_drop_run db None [] [] (final loop) (final fn)
              (teardown_done db (final fn))) as [Hfn Hfnlog].
  fold fn in Hfn, Hfnlog. rewrite app_nil_r in Hfnlog.
  specialize (Hlog _ _ _ Hfnlog).
  assert (Hrun : (print MsgDroppingTables ;;;
                  for_each tables_to_drop (fun table => guarded_drop db (Some table)) ;;;
                  guarded_drop db None) s
                 = Build_Run (Returned tt) (final fn)
                     (EvPrint MsgDroppingTables :: events loop ++ events fn)).
  { rewrite (bind_returned _ _ s tt) by reflexivity.
    cbn [print final events outcome].
    rewrite (bind_returned _ _ s tt) by exact Hloop.
    fold loop. fold fn. rewrite Hfn. reflexivity. }
  rewrite Hrun. simpl. split; [reflexivity|].
  eexists. split; [reflexivity|]. exact Hlog.
Qed.

(** C4. Whatever the store does with each statement, [drop_all_tables]
    issues the cascading drops of positions, accounts, jobs, instruments
    and users in that order and then the drop of
    [update_updated_at_column]; every statement is followed by its own
    status line, a failure being caught and logged with its exception;
    the loop runs to its end and the function returns. *)
Theorem drop_all_tables_never_raises (s : S) :
  let r := drop_all_tables (Id := Id) db s in
  outcome r = Returned tt /\
  (exists evs,
     events r = EvPrint MsgDroppingTables :: evs /\
     teardown_log db s drop_subjects evs (final r)) /\
  executed (events r) =
    ["DROP TABLE IF EXISTS positions CASCADE";
     "DROP TABLE IF EXISTS accounts CASCADE";
     "DROP TABLE IF EXISTS jobs CASCADE";
     "DROP TABLE IF EXISTS instruments CASCADE";
     "DROP TABLE IF EXISTS users CASCADE";
     "DROP FUNCTION IF EXISTS update_updated_at_column() CASCADE"].
Proof.
  destruct (drop_all_tables_run s) as [Hout [evs [Hevs Hlog]]].
  cbv zeta. split; [exact Hout|]. split.
  - exists evs. split; assumption.
  - rewrite Hevs. apply teardown_log_executed in Hlog.
    change (executed (EvPrint MsgDroppingTables :: evs)) with (executed evs).
    rewrite Hlog. reflexivity.
Qed.
End TeardownTotal.

(** ** What a script can emit *)

Section Emits.
Context {S Id : Type}.

Variable P : Event Id -> Prop.

Lemma emits_ret {A} (a : A) : emits (S := S) P (ret a).
Proof. intros s. constructor. Qed.

Lemma emits_raise {A} e : emits (S := S) P (raise (A := A) e).
Proof. intros s. constructor. Qed.

Lemma emits_sys_exit {A} c : emits (S := S) P (sys_exit (A := A) c).
Proof. intros s. constructor. Qed.

Lemma emits_print m : P (EvPrint m) -> emits (S := S) P (print m).
Proof. intros H s. simpl. auto. Qed.

Lemma emits_call {A} ev (op : Op S A) : P ev -> emits P (call ev op).
Proof. intros H s. rewrite call_events. auto. Qed.

Lemma emits_bind {A B} (m : M S Id A) (k : A -> M S Id B) :
  emits P m -> (forall a, emits P (k a)) -> emits P (bind m k).
Proof.
  intros Hm Hk s. unfold bind. specialize (Hm s).
  destruct (outcome (m s)); simpl; trivial.
  apply Forall_app. split; [trivial | apply Hk].
Qed.

Lemma emits_try_except {A} (body : M S Id A) handler :
  emits P body -> (forall e, emits P (handler e)) -> emits P (try_except body handler).
Proof.
  intros Hb Hh s. unfold try_except. specialize (Hb s).
  destruct (outcome (body s)); simpl; trivial.
  apply Forall_app. split; [trivial | apply Hh].
Qed.

Lemma emits_for_each {A} (xs : list A) (body : A -> M S Id unit) :
  (forall x, emits P (body x)) -> emits P (for_each xs body).
Proof.
  intros Hb. induction xs as [|x xs IH]; simpl.
  - apply emits_ret.
  - apply emits_bind; auto.
Qed.

Lemma emits_for_append {A B} (xs : list A) (body : A -> M S Id B) acc :
  (forall x, emits P (body x)) -> emits P (for_append xs body acc).
Proof.
  intros Hb. revert acc. induction xs as [|x xs IH]; intros acc; simpl.
  - apply emits_ret.
  - apply emits_bind; auto.
Qed.

Lemma emits_lift {A} (r : Result A) : emits (S := S) P (lift r).
Proof. destruct r; [apply emits_ret | apply emits_raise]. Qed.

Lemma emits_construct {A} (ok : A -> bool) model fields :
  emits (S := S) P (construct ok model fields).
Proof. unfold construct. destruct (ok fields); [apply emits_ret | apply emits_raise]. Qed.
End Emits.

Lemma emits_weaken {S Id A} (P Q : Event Id -> Prop) (m : M S Id A) :
  (forall ev, P ev -> Q ev) -> emits P m -> emits Q m.
Proof. intros H Hm s. eapply Forall_impl; [apply Hm | exact H]. Qed.

(** The scripts that emit nothing. *)
Create HintDb emits discriminated.
#[export] Hint Resolve emits_ret emits_raise emits_sys_exit emits_lift
  emits_construct : emits.

(** Decompose a script along its structure; what is left are the side
    conditions on single calls and lines. *)
Ltac emits_step :=
  match goal with
  | |- emits _ (bind _ _) => apply emits_bind; [|intros ?]
  | |- emits _ (try_except _ _) => apply emits_try_except; [|intros ?]
  | |- emits _ (for_each _ _) => apply emits_for_each; intros ?
  | |- emits _ (for_append _ _ _) => apply emits_for_append; intros ?
  | |- emits _ (print _) => apply emits_print
  | |- emits _ (call _ _) => apply emits_call
  | |- emits _ (match ?x with _ => _ end) => destruct x
  | |- emits _ (if ?b then _ else _) => destruct b
  | |- emits _ (let _ := _ in _) => cbv zeta
  | |- emits _ _ => solve [auto with emits]
  end.

Section EmitsScripts.
Context {S Id : Type}.
Variable os : Subprocess S.
Variable db : DataAPIClient S.
Variable db_models : Database S Id.
Variable sch : Schemas Id.

Lemma drop_all_tables_emits :
  emits (fun ev => is_print ev || is_execute ev = true) (drop_all_tables (Id := Id) db).
Proof. unfold drop_all_tables. repeat emits_step; reflexivity. Qed.

Lemma provision_user_emits :
  emits (fun ev => is_print ev || is_model_call ev = true)
        (provision_user sch db_models).
Proof. unfold provision_user. repeat emits_step; reflexivity. Qed.

Lemma provision_accounts_emits :
  emits (fun ev => is_print ev || is_model_call ev = true)
        (provision_accounts sch db_models).
Proof. unfold provision_accounts. repeat emits_step; reflexivity. Qed.

Lemma provision_positions_emits ids :
  emits (fun ev => is_print ev || is_model_call ev = true)
        (provision_positions sch db_models ids).
Proof. unfold provision_positions. repeat emits_step; reflexivity. Qed.

Lemma create_test_data_emits :
  emits (fun ev => is_print ev || is_model_call ev = true)
        (create_test_data sch db_models).
Proof.
  unfold create_test_data. repeat emits_step;
    auto using provision_user_emits, provision_accounts_emits,
               provision_positions_emits.
Qed.

Lemma final_verification_emits :
  emits (fun ev => is_print ev || is_query ev = true) (final_verification (Id := Id) db).
Proof. unfold final_verification. repeat emits_step; reflexivity. Qed.

Lemma load_seed_data_emits :
  emits (fun ev => is_print ev = true \/ ev = EvRun seed_cmd) (load_seed_data (Id := Id) os).
Proof. unfold load_seed_data. repeat emits_step; auto. Qed.
End EmitsScripts.

(** ** The orchestrator *)

Section MainProperties.
Context {S Id : Type}.
Variable os : Subprocess S.
Variable db : DataAPIClient S.
Variable db_models : Database S Id.
Variable sch : Schemas Id.

Lemma bind_print_run {B} (m : Msg) (k : unit -> M S Id B) (s : S) :
  bind (print m) k s =
  Build_Run (outcome (k tt s)) (final (k tt s)) (EvPrint m :: events (k tt s)).
Proof. reflexivity. Qed.

Lemma bind_call_success {A B} ev (op : Op S A) (k : A -> M S Id B) s a s1 :
  op s = (Success a, s1) ->
  bind (call ev op) k s =
  Build_Run (outcome (k a s1)) (final (k a s1)) (ev :: events (k a s1)).
Proof. intros H. unfold bind. rewrite (call_success _ _ _ _ _ H). reflexivity. Qed.

Lemma bind_call_failure {A B} ev (op : Op S A) (k : A -> M S Id B) s e s1 :
  op s = (Failure e, s1) ->
  bind (call ev op) k s = Build_Run (Raised e) s1 [ev].
Proof. intros H. unfold bind. rewrite (call_failure _ _ _ _ _ H). reflexivity. Qed.

(** The teardown emits drop statements and console lines only. *)
Lemma drop_all_tables_quiet (s : S) :
  Forall (fun ev : Event Id =>
            is_run ev = false /\ is_model_call ev = false /\ is_query ev = false)
         (events (drop_all_tables db s)).
Proof.
  eapply Forall_impl; [apply drop_all_tables_emits|].
  intros [] H; simpl in *; auto; discriminate.
Qed.

Lemma drop_and_migrate_failed (args : Args) (s s1 : S) (cp : CompletedProcess) :
  skip_drop args = false ->
  os migrate_cmd (final (drop_all_tables (Id := Id) db s)) = (Success cp, s1) ->
  returncode cp ≠ 0 ->
  drop_and_migrate os db args s =
  Build_Run (Exited 1) s1
    (events (drop_all_tables (Id := Id) db s) ++
     [EvPrint MsgRunningMigrations; EvRun migrate_cmd;
      EvPrint MsgMigrationFailed; EvPrint (MsgText (stderr cp))]).
Proof.
  intros Hskip Hrun Hrc. unfold drop_and_migrate. rewrite Hskip. cbn [negb].
  rewrite (bind_returned _ _ s tt) by apply drop_all_tables_run.
  rewrite bind_print_run, (bind_call_success _ _ _ _ _ _ Hrun).
  destruct (decide (returncode cp ≠ 0)) as [_|Hz]; [|contradiction].
  reflexivity.
Qed.

(** C5. When the migration subprocess comes back with a non-zero exit
    status, [main] prints the captured stderr and exits with code 1;
    the seed loader is never started and neither the test data nor the
    record counts are touched. *)
Theorem migration_failure_is_fatal (args : Args) (s s1 : S) (cp : CompletedProcess) :
  skip_drop args = false ->
  os migrate_cmd (final (drop_all_tables (Id := Id) db s)) = (Success cp, s1) ->
  returncode cp ≠ 0 ->
  let r := main os db db_models sch args s in
  outcome r = Exited 1 /\
  final r = s1 /\
  events r =
    [EvPrint MsgBanner; EvPrint MsgRule] ++
    events (drop_all_tables (Id := Id) db s) ++
    [EvPrint MsgRunningMigrations; EvRun migrate_cmd;
     EvPrint MsgMigrationFailed; EvPrint (MsgText (stderr cp))] /\
  Forall (fun ev => ev ≠ EvRun seed_cmd /\ is_model_call ev = false /\ is_query ev = false)
         (events r).
Proof.
  intros Hskip Hrun Hrc.
  assert (Hmain : main os db db_models sch args s =
                  Build_Run (Exited 1) s1
                    ([EvPrint MsgBanner; EvPrint MsgRule] ++
                     events (drop_all_tables (Id := Id) db s) ++
                     [EvPrint MsgRunningMigrations; EvRun migrate_cmd;
                      EvPrint MsgMigrationFailed; EvPrint (MsgText (stderr cp))])).
  { unfold main. rewrite !bind_print_run.
    rewrite (bind_exited _ _ s 1);
      rewrite (drop_and_migrate_failed args s s1 cp Hskip Hrun Hrc); reflexivity. }
  cbv zeta. rewrite Hmain. cbn [outcome final events].
  repeat split.
  change ([EvPrint MsgBanner; EvPrint MsgRule] ++ ?l)
    with (EvPrint (Id := Id) MsgBanner :: EvPrint MsgRule :: l).
  do 2 (apply Forall_cons; split; [repeat split; discriminate|]).
  apply Forall_app. split.
  - eapply Forall_impl; [apply drop_all_tables_quiet|].
    intros ev (Hr & Hm & Hq). repeat split; trivial.
    intros ->. discriminate.
  - repeat (apply Forall_cons; split; [repeat split; discriminate|]).
    constructor.
Qed.
End MainProperties.

Section SkipDrop.
Context {S Id : Type}.
Variable os : Subprocess S.
Variable db : DataAPIClient S.
Variable db_models : Database S Id.
Variable sch : Schemas Id.

Lemma load_seed_data_starts (s : S) :
  exists rest,
    events (load_seed_data (Id := Id) os s) =
    [EvPrint MsgLoadingSeed; EvRun seed_cmd] ++ rest.
Proof.
  unfold load_seed_data. rewrite bind_print_run. cbn [events].
  destruct (bind_events_prefix
              (call (Id := Id) (EvRun seed_cmd) (os seed_cmd))
              (fun result =>
                 if decide (returncode result ≠ 0)
                 then print MsgSeedFailed ;;; print (MsgText (stderr result)) ;;; sys_exit 1
                 else if str_in "22/22 instruments loaded" (stdout result)
                      then print MsgLoaded22 else print MsgSeedLoaded) s)
    as [rest Hrest].
  rewrite call_events in Hrest. exists rest. cbn [app]. f_equal. exact Hrest.
Qed.

Lemma main_skip_drop_emits (args : Args) :
  skip_drop args = true ->
  emits (fun ev => is_execute ev = false /\ ev ≠ EvRun migrate_cmd)
        (main os db db_models sch args).
Proof.
  intros Hskip. unfold main, drop_and_migrate. rewrite Hskip. cbn [negb].
  repeat emits_step; try (split; [reflexivity | discriminate]).
  - eapply emits_weaken; [|apply load_seed_data_emits].
    intros ev [Hp | ->]; [|split; [reflexivity | discriminate]].
    destruct ev; try discriminate. split; [reflexivity | discriminate].
  - eapply emits_weaken; [|apply create_test_data_emits].
    intros []; simpl; intros H; try discriminate; split; trivial; discriminate.
  - eapply emits_weaken; [|apply final_verification_emits].
    intros []; simpl; intros H; try discriminate; split; trivial; discriminate.
Qed.

(** C6. With [--skip-drop], [main] issues no drop statement and does not
    start the migrations; after the banner its first step is the seed
    loader. *)
Theorem skip_drop_goes_to_seed (args : Args) (s : S) :
  skip_drop args = true ->
  let r := main os db db_models sch args s in
  Forall (fun ev => is_execute ev = false /\ ev ≠ EvRun migrate_cmd) (events r) /\
  exists rest,
    events r =
    [EvPrint MsgBanner; EvPrint MsgRule; EvPrint MsgLoadingSeed; EvRun seed_cmd] ++ rest.
Proof.
  intros Hskip. cbv zeta. split.
  - now apply main_skip_drop_emits.
  - unfold main, drop_and_migrate. rewrite Hskip. cbn [negb].
    rewrite !bind_print_run. cbn [events].
    rewrite (bind_returned _ _ s tt) by reflexivity. cbn [ret final events app].
    match goal with
    | |- context [events (bind (load_seed_data os) ?k s)] =>
        destruct (bind_events_prefix (load_seed_data (Id := Id) os) k s) as [rest Hrest]
    end.
    rewrite Hrest. destruct (load_seed_data_starts s) as [rest' ->].
    exists (rest' ++ rest). cbn [app]. reflexivity.
Qed.
End SkipDrop.

(** ** The record counts *)

Section Verification.
Context {S Id : Type}.
Variable os : Subprocess S.
Variable db : DataAPIClient S.
Variable db_models : Database S Id.
Variable sch : Schemas Id.

Lemma count_loop_run (ts : list string) (s : S) :
  let r := for_each (Id := Id) ts (count_line_of db) s in
  count_log db s ts (events r) (outcome r) (final r).
Proof.
  revert s. induction ts as [|t ts IH]; intros s; cbv zeta.
  - apply count_done.
  - cbn [for_each].
    destruct (query db (count_sql t) s) as [[result|e] s1] eqn:Hq.
    + destruct (first_count result) as [c|e] eqn:Hc.
      * assert (Hone : count_line_of (Id := Id) db t s =
                       Build_Run (Returned tt) s1
                         [EvQuery (count_sql t); EvPrint (MsgCount t c)]).
        { unfold count_line_of. rewrite (bind_call_success _ _ _ _ _ _ Hq), Hc.
          reflexivity. }
        rewrite (bind_returned _ _ s tt) by now rewrite Hone.
        rewrite Hone. cbn [outcome final events app].
        eapply count_line; eauto.
      * assert (Hone : count_line_of (Id := Id) db t s =
                       Build_Run (Raised e) s1 [EvQuery (count_sql t)]).
        { unfold count_line_of. rewrite (bind_call_success _ _ _ _ _ _ Hq), Hc.
          reflexivity. }
        rewrite (bind_raised _ _ s e) by now rewrite Hone.
        rewrite Hone. cbn [outcome final events]. eapply count_row_raised; eauto.
    + assert (Hone : count_line_of (Id := Id) db t s =
                     Build_Run (Raised e) s1 [EvQuery (count_sql t)]).
      { unfold count_line_of. now rewrite (bind_call_failure _ _ _ _ _ _ Hq). }
      rewrite (bind_raised _ _ s e) by now rewrite Hone.
      rewrite Hone. cbn [outcome final events]. now apply count_query_raised.
Qed.

Lemma main_ends_with_verification (args : Args) (s : S) :
  outcome (main os db db_models sch args s) =
  match outcome (before_verification os db db_models sch args s) with
  | Returned _ =>
      outcome (final_verification (Id := Id) db
                 (final (before_verification os db db_models sch args s)))
  | Raised e => Raised e
  | Exited c => Exited c
  end.
Proof.
  unfold main, before_verification. rewrite !bind_print_run. cbn [outcome final].
  rewrite !outcome_bind, ?final_bind.
  destruct (outcome (drop_and_migrate os db args s)) as [[]| |]; trivial.
  destruct (outcome (load_seed_data os _)) as [[]| |]; trivial.
  match goal with
  | |- context [outcome (final_verification db ?s1)] =>
      destruct (outcome (final_verification (Id := Id) db s1)) as [[]| |]
  end.
  - destruct (outcome (_ _)) as [[]| |]; trivial.
    cbn [print outcome final]. destruct (with_test_data args); reflexivity.
  - destruct (outcome (_ _)) as [[]| |]; trivial.
  - destruct (outcome (_ _)) as [[]| |]; trivial.
Qed.

Lemma count_log_returned (ts : list string) (s s1 : S) evs (o : Outcome unit) :
  count_log (Id := Id) db s ts evs o s1 ->
  o = Returned tt <-> counts_answer db ts s.
Proof.
  induction 1 as [s|s table rest result c s1 evs o s2 Hq Hc _ IH
                 |s table rest e s1 Hq|s table rest result e s1 Hq Hc];
    cbn [counts_answer]; try rewrite Hq.
  - tauto.
  - destruct result as [|row result]; [exact IH|].
    cbn [first_count] in Hc. destruct (row !! "count") as [c0|]; [|discriminate].
    rewrite IH. split; [intros Hrest; split; [eauto|exact Hrest]|tauto].
  - split; [discriminate|tauto].
  - destruct result as [|row result]; [discriminate|].
    cbn [first_count] in Hc. destruct (row !! "count") as [c0|] eqn:Hrow; [discriminate|].
    split; [discriminate|]. intros [[c0 Hsome] _]. congruence.
Qed.

(** C7 (as the code has it). The verification step issues only count
    queries, one per tracked table in the order users, instruments,
    accounts, positions, jobs, and no call that writes; an empty result
    is printed as a count of 0.  It runs to its end exactly when every
    query answers with no row or with a first row that has a count; a
    count query that raises, or a first row without a count, is not
    caught and ends the step with that exception, and [main], once it has
    reached the step, ends the way the step ends. *)
Theorem final_verification_counts (args : Args) (s0 s : S) :
  let r := final_verification (Id := Id) db s in
  (exists evs,
     events r = EvPrint MsgFinalVerification :: evs /\
     count_log db s ["users"; "instruments"; "accounts"; "positions"; "jobs"]
               evs (outcome r) (final r)) /\
  Forall (fun ev => is_mutation ev = false) (events r) /\
  first_count [] = Success 0 /\
  (outcome r = Returned tt <->
   counts_answer db ["users"; "instruments"; "accounts"; "positions"; "jobs"] s) /\
  outcome (main os db db_models sch args s0) =
  match outcome (before_verification os db db_models sch args s0) with
  | Returned _ =>
      outcome (final_verification (Id := Id) db
                 (final (before_verification os db db_models sch args s0)))
  | Raised e => Raised e
  | Exited c => Exited c
  end.
Proof.
  cbv zeta.
  assert (Hlog : exists evs,
            events (final_verification (Id := Id) db s) =
              EvPrint MsgFinalVerification :: evs /\
            count_log db s ["users"; "instruments"; "accounts"; "positions"; "jobs"]
              evs (outcome (final_verification (Id := Id) db s))
              (final (final_verification (Id := Id) db s))).
  { change (final_verification db) with
      (print (S := S) (Id := Id) MsgFinalVerification ;;; for_each tables (count_line_of db)).
    rewrite bind_print_run. cbn [outcome final events].
    eexists. split; [reflexivity|]. apply (count_loop_run tables s). }
  split; [exact Hlog|split; [|split; [reflexivity|split]]].
  - eapply Forall_impl; [apply final_verification_emits|].
    intros []; simpl; intros H; try discriminate; reflexivity.
  - destruct Hlog as (evs & _ & Hlog). exact (count_log_returned _ _ _ _ _ Hlog).
  - apply main_ends_with_verification.
Qed.
End Verification.

(** ** The seed summary line *)

Section SeedSummary.
Context {S Id : Type}.

Lemma same_but_summary_bind {A B} (m' m : M S Id A) (k' k : A -> M S Id B) s :
  same_but_summary (m' s) (m s) ->
  (forall a s1, same_but_summary (k' a s1) (k a s1)) ->
  same_but_summary (bind m' k' s) (bind m k s).
Proof.
  intros (Ho & Hf & He) Hk. unfold bind. rewrite Ho, Hf.
  destruct (outcome (m s)) as [a| |]; cbn [outcome final events].
  - destruct (Hk a (final (m s))) as (Ho' & Hf' & He').
    repeat split; trivial. rewrite He, He'. symmetry. apply List.map_app.
  - repeat split; trivial.
  - repeat split; trivial.
Qed.

Lemma same_but_summary_refl {A} (m : M S Id A) s :
  emits (fun ev => plain_summary ev = ev) m ->
  same_but_summary (m s) (m s).
Proof.
  intros Hm. repeat split. specialize (Hm s).
  induction Hm as [|ev evs Hev _ IH]; cbn [map]; congruence.
Qed.

Variable os : Subprocess S.
Variable db : DataAPIClient S.
Variable db_models : Database S Id.
Variable sch : Schemas Id.

Lemma bind_ext {A B} (m : M S Id A) (k k' : A -> M S Id B) s :
  (forall a s1, k a s1 = k' a s1) -> bind m k s = bind m k' s.
Proof. intros H. unfold bind. destruct (outcome (m s)); trivial. now rewrite H. Qed.

Lemma drop_and_migrate_ignores_stdout out args s :
  drop_and_migrate (Id := Id) (with_stdout out os) db args s =
  drop_and_migrate os db args s.
Proof.
  unfold drop_and_migrate. destruct (skip_drop args); cbn [negb]; trivial.
  apply bind_ext. intros _ s0. rewrite !bind_print_run.
  unfold bind, call, with_stdout.
  destruct (os migrate_cmd s0) as [[cp|e] s1]; cbn; trivial.
Qed.

Lemma drop_and_migrate_no_summary args :
  emits (fun ev => plain_summary ev = ev) (drop_and_migrate (Id := Id) os db args).
Proof. unfold drop_and_migrate, drop_all_tables. repeat emits_step; reflexivity. Qed.

Lemma create_test_data_no_summary :
  emits (fun ev => plain_summary ev = ev) (create_test_data sch db_models).
Proof.
  unfold create_test_data, provision_user, provision_accounts, provision_positions.
  repeat emits_step; reflexivity.
Qed.

Lemma final_verification_no_summary :
  emits (fun ev => plain_summary ev = ev) (final_verification (Id := Id) db).
Proof. unfold final_verification. repeat emits_step; reflexivity. Qed.

Lemma load_seed_data_plain out s :
  str_in "22/22 instruments loaded" out = false ->
  same_but_summary (load_seed_data (Id := Id) (with_stdout out os) s)
                   (load_seed_data os s).
Proof.
  intros Hout. unfold load_seed_data. rewrite !bind_print_run.
  unfold bind, call, with_stdout.
  destruct (os seed_cmd s) as [[cp|e] s1]; cbn.
  - destruct (decide (returncode cp ≠ 0)); cbn.
    + repeat split.
    + rewrite Hout. destruct (str_in _ (stdout cp)); repeat split.
  - repeat split.
Qed.

Lemma load_seed_data_without_sentinel out s cp s1 :
  str_in "22/22 instruments loaded" out = false ->
  os seed_cmd s = (Success cp, s1) ->
  returncode cp = 0 ->
  load_seed_data (Id := Id) (with_stdout out os) s =
  Build_Run (Returned tt) s1
    [EvPrint MsgLoadingSeed; EvRun seed_cmd; EvPrint MsgSeedLoaded].
Proof.
  intros Hout Hrun Hrc. unfold load_seed_data. rewrite bind_print_run.
  unfold bind, call, with_stdout. rewrite Hrun. cbn.
  destruct (decide (returncode cp ≠ 0)) as [Hne|_]; [contradiction|].
  now rewrite Hout.
Qed.

(** C8. The scan of the loader's stdout only picks the summary line.
    When the captured output lacks ["22/22 instruments loaded"], a
    zero-exit load prints the plain summary and returns, and the whole
    run ends the same way, leaves the same store and issues the same
    calls and lines as with any other output, the summary line apart. *)
Theorem missing_sentinel_is_harmless (out : string) (args : Args) (s : S) :
  str_in "22/22 instruments loaded" out = false ->
  (forall s0 cp s1,
     os seed_cmd s0 = (Success cp, s1) ->
     returncode cp = 0 ->
     load_seed_data (Id := Id) (with_stdout out os) s0 =
     Build_Run (Returned tt) s1
       [EvPrint MsgLoadingSeed; EvRun seed_cmd; EvPrint MsgSeedLoaded]) /\
  same_but_summary (main (with_stdout out os) db db_models sch args s)
                   (main os db db_models sch args s).
Proof.
  intros Hout. split.
  - intros s0 cp s1. now apply load_seed_data_without_sentinel.
  - unfold main.
    apply same_but_summary_bind; [repeat split|intros _ s1].
    apply same_but_summary_bind; [repeat split|intros _ s2].
    apply same_but_summary_bind; [|intros _ s3].
    { rewrite drop_and_migrate_ignores_stdout.
      apply same_but_summary_refl, drop_and_migrate_no_summary. }
    apply same_but_summary_bind; [now apply load_seed_data_plain|intros _ s4].
    apply same_but_summary_bind; [|intros _ s5].
    { apply same_but_summary_refl.
      destruct (with_test_data args);
        [apply create_test_data_no_summary | apply emits_ret]. }
    apply same_but_summary_bind; [|intros _ s6].
    { apply same_but_summary_refl, final_verification_no_summary. }
    apply same_but_summary_refl. repeat emits_step; reflexivity.
Qed.
End SeedSummary.

(** ** The fixture: what holds for every table model *)

Section Fixture.
Context {S Id : Type}.
Variable sch : Schemas Id.
Variable db_models : Database S Id.

Lemma bind_assoc {A B C} (m : M S Id A) (k : A -> M S Id B) (h : B -> M S Id C) s :
  bind (bind m k) h s = bind m (fun a => bind (k a) h) s.
Proof.
  unfold bind. destruct (outcome (m s)) as [a| |]; cbn [outcome final events]; trivial.
  destruct (outcome (k a (final (m s)))); cbn [outcome final events]; trivial.
  now rewrite app_assoc.
Qed.

Lemma bind_construct {A B} (ok : A -> bool) model fields (k : A -> M S Id B) s :
  bind (construct ok model fields) k s =
  if ok fields then k fields s
  else Build_Run (Raised (ValidationError model)) s [].
Proof.
  unfold bind, construct. destruct (ok fields); cbn; trivial.
  now destruct (k fields s).
Qed.

Lemma for_append_length {A B} (xs : list A) (body : A -> M S Id B) acc s l :
  outcome (for_append xs body acc s) = Returned l ->
  length l = (length acc + length xs)%nat.
Proof.
  revert acc s. induction xs as [|x xs IH]; intros acc s; cbn [for_append].
  - cbn. intros [= <-]. lia.
  - unfold bind. destruct (outcome (body x s)) as [b| |]; cbn [outcome]; try discriminate.
    intros H. apply IH in H. rewrite H, length_app. cbn. lia.
Qed.

Lemma create_test_data_steps s :
  create_test_data sch db_models s =
  bind (provision_owner sch db_models) (provision_positions sch db_models) s.
Proof. unfold create_test_data, provision_owner. now rewrite bind_assoc. Qed.

Lemma provision_owner_adds_no_position :
  emits (fun ev => forall p, ev ≠ EvAddPosition p) (provision_owner sch db_models).
Proof.
  unfold provision_owner, provision_user, provision_accounts.
  repeat emits_step; discriminate.
Qed.

(** Where the position step writes. *)
Lemma provision_positions_emits_first (a : Id) (rest : list Id) :
  emits (fun ev => forall q, ev = EvAddPosition q -> account_id q = a)
        (provision_positions sch db_models (a :: rest)).
Proof.
  cbn [provision_positions].
  apply emits_bind; [apply emits_call; discriminate|intros existing].
  destruct existing; [|apply emits_print; discriminate].
  apply emits_for_each. intros [sym q] s0. rewrite bind_construct.
  destruct (position_ok sch _); [|constructor].
  revert s0. apply emits_bind; [apply emits_call|intros _; apply emits_print].
  - intros q0 [= <-]. reflexivity.
  - discriminate.
Qed.

Lemma provision_positions_target (ids : list Id) (s : S) (p : PositionCreate Id) :
  EvAddPosition p ∈ events (provision_positions sch db_models ids s) ->
  exists rest,
    ids = account_id p :: rest /\
    (find_by_account (positions db_models) (account_id p) s).1 = Success [].
Proof.
  destruct ids as [|a rest].
  { cbn. intros H. inversion H. }
  intros H.
  pose proof (provision_positions_emits_first a rest s) as Hfirst.
  rewrite Forall_forall in Hfirst. specialize (Hfirst _ H p eq_refl). subst a.
  exists rest. split; trivial.
  revert H. cbn [provision_positions].
  destruct (find_by_account (positions db_models) (account_id p) s)
    as [[[|x l]|e] s1] eqn:Hfind; trivial.
  - rewrite (bind_call_success _ _ _ _ _ _ Hfind). cbn.
    intros H. inversion H as [|? ? ? H']; subst.
    apply list_elem_of_singleton in H'. discriminate.
  - rewrite (bind_call_failure _ _ _ _ _ _ Hfind). cbn.
    intros H. apply list_elem_of_singleton in H. discriminate.
Qed.

(** C9. Whatever the tables hold, a position that [create_test_data]
    inserts belongs to the first identifier of the account list the
    account step produced, whether these accounts were found or just
    created, and it is inserted only when the lookup of that account's
    positions came back empty. *)
Theorem positions_only_in_first_account (s : S) (p : PositionCreate Id) :
  EvAddPosition p ∈ events (create_test_data sch db_models s) ->
  exists account_ids rest,
    outcome (provision_owner sch db_models s) = Returned account_ids /\
    account_ids = account_id p :: rest /\
    (find_by_account (positions db_models) (account_id p)
                     (final (provision_owner sch db_models s))).1 = Success [].
Proof.
  rewrite create_test_data_steps. unfold bind.
  pose proof (provision_owner_adds_no_position s) as Hpre.
  rewrite Forall_forall in Hpre.
  destruct (outcome (provision_owner sch db_models s)) as [ids| |] eqn:Hout; cbn [events].
  - intros H. apply elem_of_app in H as [H|H].
    { now apply Hpre with (p := p) in H. }
    apply provision_positions_target in H as (rest & -> & Hfind).
    now exists (account_id p :: rest), rest.
  - intros H. now apply Hpre with (p := p) in H.
  - intros H. now apply Hpre with (p := p) in H.
Qed.

(** C10. When the account step of [create_test_data] returns, its list
    of account identifiers is not empty: the guard of the position step
    holds and the positions of the first account are looked up. *)
Theorem account_ids_never_empty (s : S) (account_ids : list Id) :
  outcome (provision_accounts sch db_models s) = Returned account_ids ->
  exists first rest,
    account_ids = first :: rest /\
    forall s1, exists tail,
      events (provision_positions sch db_models account_ids s1) =
      EvFindByAccount first :: tail.
Proof.
  intros Hout.
  assert (Hne : account_ids ≠ []).
  { revert Hout. unfold provision_accounts. unfold bind at 1.
    destruct (outcome (for_append test_accounts _ [] s)) as [l| |] eqn:Hl;
      cbn [outcome]; try discriminate.
    apply for_append_length in Hl. cbn in Hl.
    unfold bind at 1, call.
    destruct (find_by_user (accounts db_models) "test_user_001" _)
      as [[[|x rows]|e] s1]; cbn [outcome final events]; try discriminate.
    - intros H. apply for_append_length in H. cbn in H.
      intros ->. cbn in H. lia.
    - cbn. intros [= <-]. discriminate. }
  destruct account_ids as [|first rest]; [contradiction|].
  exists first, rest. split; trivial. intros s1. cbn [provision_positions].
  match goal with
  | |- context [events (bind ?m ?k s1)] =>
      destruct (bind_events_prefix m k s1) as [tail Htail]
  end.
  rewrite call_events in Htail. now exists tail.
Qed.
End Fixture.

(** ** The fixture on the reference store *)

Section FixtureOnStore.
Variables years_min years_max : Z.

Local Abbreviation sch := (Store.schemas years_min years_max).
Local Abbreviation dbm := Store.db_models.
Local Abbreviation K := "test_user_001".

Lemma user_data_valid :
  years_min ≤ 25 ≤ years_max -> user_ok sch user_data = true.
Proof.
  intros H. cbn. rewrite bool_decide_eq_true_2 by exact H. reflexivity.
Qed.

Lemma test_accounts_valid (s : Store.t) :
  for_append (Id := nat) test_accounts
    (construct (account_ok sch) "AccountCreate") [] s =
  Build_Run (Returned test_accounts) s [].
Proof. reflexivity. Qed.

Lemma provision_user_run (s : Store.t) :
  user_ok sch user_data = true ->
  provision_user sch dbm s =
  match Store.users_of K s with
  | [] =>
      Build_Run (Returned tt) (Store.insert_user user_data s)
        [EvPrint MsgCreatingTestUser; EvFindByClerkId K;
         EvCreateUser user_data; EvPrint MsgCreatedUser]
  | _ :: _ =>
      Build_Run (Returned tt) s
        [EvPrint MsgCreatingTestUser; EvFindByClerkId K; EvPrint MsgUserExists]
  end.
Proof.
  intros Hok. unfold provision_user.
  rewrite bind_print_run, bind_construct, Hok.
  erewrite bind_call_success by reflexivity.
  destruct (Store.users_of K s) as [|u us] eqn:Hu; cbn [head].
  - cbv zeta. erewrite bind_call_success.
    2:{ cbn. unfold Store.create_user. cbn [clerk_user_id user_data].
        rewrite Hu. reflexivity. }
    reflexivity.
  - reflexivity.
Qed.
Lemma provision_accounts_found (s : Store.t) row rows :
  Store.accounts_of K s = row :: rows ->
  provision_accounts sch dbm s =
  Build_Run (Returned (map id (row :: rows))) s
    [EvFindByUser K; EvPrint (MsgHasAccounts (length (row :: rows)))].
Proof.
  intros Hacc. unfold provision_accounts.
  rewrite (bind_returned _ _ s test_accounts) by now rewrite test_accounts_valid.
  rewrite test_accounts_valid. cbn [outcome final events app].
  erewrite bind_call_success by reflexivity. rewrite Hacc. reflexivity.
Qed.

Lemma create_account_run (a : AccountCreate) (s : Store.t) :
  Store.users_of K s ≠ [] ->
  (acc_id <- call (Id := nat) (EvCreateAccount K a)
                  (create_account (accounts dbm) K a) ;;
   print (MsgCreatedAccount (account_name a)) ;;;
   ret acc_id) s =
  Build_Run (Returned (Store.next_id s)) (Store.insert_account K a s)
    [EvCreateAccount K a; EvPrint (MsgCreatedAccount (account_name a))].
Proof.
  intros Husers. etransitivity.
  { eapply run_bind.
    - apply call_success. cbn. unfold Store.create_account.
      destruct (Store.users_of K s); [contradiction|reflexivity].
    - eapply run_bind; reflexivity. }
  reflexivity.
Qed.

Lemma provision_accounts_created (s : Store.t) :
  Store.accounts_of K s = [] ->
  Store.users_of K s ≠ [] ->
  provision_accounts sch dbm s =
  Build_Run
    (Returned [Store.next_id s; Datatypes.S (Store.next_id s);
               Datatypes.S (Datatypes.S (Store.next_id s))])
    (with_test_accounts s)
    [EvFindByUser K;
     EvCreateAccount K account_401k; EvPrint (MsgCreatedAccount "401(k)");
     EvCreateAccount K account_roth; EvPrint (MsgCreatedAccount "Roth IRA");
     EvCreateAccount K account_taxable;
     EvPrint (MsgCreatedAccount "Taxable Brokerage")].
Proof.
  intros Hacc Husers. unfold provision_accounts. etransitivity.
  { eapply run_bind; [apply test_accounts_valid|].
    eapply run_bind; [apply call_success; reflexivity|].
    rewrite Hacc. unfold test_accounts. cbn [for_append].
    eapply run_bind; [apply (create_account_run account_401k), Husers|].
    eapply run_bind; [apply (create_account_run account_roth), Husers|].
    eapply run_bind; [apply (create_account_run account_taxable), Husers|].
    reflexivity. }
  reflexivity.
Qed.

Lemma provision_positions_found (s : Store.t) a rest p ps :
  Store.positions_of a s = p :: ps ->
  provision_positions sch dbm (a :: rest) s =
  Build_Run (Returned tt) s
    [EvFindByAccount a; EvPrint (MsgHasPositions (length (p :: ps)))].
Proof.
  intros Hpos. cbn [provision_positions]. etransitivity.
  { eapply run_bind; [apply call_success; reflexivity|].
    rewrite Hpos. reflexivity. }
  reflexivity.
Qed.

Lemma add_position_run (a : nat) (symbol0 : string) (quantity0 : Decimal) (s : Store.t) :
  Store.account_rows a s ≠ [] ->
  Qle_bool quantity0 0 = false ->
  (position <- construct (position_ok sch) "PositionCreate"
                 {| account_id := a; symbol := symbol0; quantity := quantity0 |} ;;
   (call (EvAddPosition
            {| account_id := account_id position; symbol := symbol position;
               quantity := quantity position |})
         (add_position (positions dbm)
            {| account_id := account_id position; symbol := symbol position;
               quantity := quantity position |}) ;;;
    print (MsgAddedPosition quantity0 symbol0))) s =
  Build_Run (Returned tt)
    (Store.insert_position (test_position a (symbol0, quantity0)) s)
    [EvAddPosition (test_position a (symbol0, quantity0));
     EvPrint (MsgAddedPosition quantity0 symbol0)].
Proof.
  intros Hrows Hq. rewrite bind_construct.
  cbn [position_ok Store.schemas]. cbn [quantity]. rewrite Hq. cbn [negb].
  etransitivity.
  { eapply run_bind; [|reflexivity].
    apply call_success. cbn. unfold Store.add_position. cbn [account_id].
    destruct (Store.account_rows a s); [contradiction|reflexivity]. }
  reflexivity.
Qed.

Lemma provision_positions_added (s : Store.t) a rest :
  Store.positions_of a s = [] ->
  Store.account_rows a s ≠ [] ->
  provision_positions sch dbm (a :: rest) s =
  Build_Run (Returned tt) (with_test_positions a s)
    (EvFindByAccount a ::
     flat_map (fun sq => [EvAddPosition (test_position a sq);
                          EvPrint (MsgAddedPosition sq.2 sq.1)]) test_positions).
Proof.
  intros Hpos Hrows. cbn [provision_positions]. etransitivity.
  { eapply run_bind; [apply call_success; reflexivity|].
    rewrite Hpos. unfold test_positions. cbn [for_each].
    do 5 (eapply run_bind; [apply add_position_run; [exact Hrows|reflexivity]|]).
    reflexivity. }
  reflexivity.
Qed.
Lemma account_rows_of_owned (s : Store.t) key row rows :
  Store.accounts_of key s = row :: rows ->
  Store.account_rows (id row) s ≠ [].
Proof.
  intros Hacc Hnone.
  assert (Hin : row ∈ Store.accounts_of key s) by (rewrite Hacc; left).
  apply list_elem_of_filter in Hin as [_ Hin].
  assert (Hrow : row ∈ Store.account_rows (id row) s).
  { apply list_elem_of_filter. split; [reflexivity|exact Hin]. }
  rewrite Hnone in Hrow. inversion Hrow.
Qed.

Lemma provision_user_post (s : Store.t) :
  user_ok sch user_data = true ->
  exists s1 evs,
    provision_user sch dbm s = Build_Run (Returned tt) s1 evs /\
    Store.users_of K s1 ≠ [] /\
    Store.accounts_table s1 = Store.accounts_table s /\
    Store.positions_table s1 = Store.positions_table s /\
    Store.next_id s1 = Store.next_id s /\
    Forall (fun ev => forall key a, ev ≠ EvCreateAccount key a) evs.
Proof.
  intros Hok. rewrite (provision_user_run s Hok).
  destruct (Store.users_of K s) as [|u us] eqn:Hu.
  - eexists _, _. split; [reflexivity|]. repeat split.
    + unfold Store.users_of, Store.insert_user. cbn [Store.users_table].
      rewrite filter_app. fold (Store.users_of K s). rewrite Hu. discriminate.
    + repeat constructor; discriminate.
  - eexists _, _. split; [reflexivity|]. repeat split.
    + now rewrite Hu.
    + repeat constructor; discriminate.
Qed.

Lemma provision_accounts_post (s : Store.t) :
  Store.users_of K s ≠ [] ->
  exists row rows s1 evs,
    provision_accounts sch dbm s =
      Build_Run (Returned (map id (row :: rows))) s1 evs /\
    Store.accounts_of K s1 = row :: rows /\
    Store.users_table s1 = Store.users_table s /\
    Store.positions_table s1 = Store.positions_table s.
Proof.
  intros Husers. destruct (Store.accounts_of K s) as [|row rows] eqn:Hacc.
  - rewrite (provision_accounts_created s Hacc Husers).
    exists {| id := Store.next_id s; owner := K; columns := account_401k |},
           [{| id := Datatypes.S (Store.next_id s); owner := K;
               columns := account_roth |};
            {| id := Datatypes.S (Datatypes.S (Store.next_id s)); owner := K;
               columns := account_taxable |}].
    eexists _, _. split; [reflexivity|]. split; [|split; reflexivity].
    unfold Store.accounts_of, with_test_accounts, Store.insert_account.
    cbn [Store.accounts_table Store.next_id].
    rewrite !filter_app. fold (Store.accounts_of K s). rewrite Hacc.
    reflexivity.
  - rewrite (provision_accounts_found s row rows Hacc).
    eexists _, _, _, _. split; [reflexivity|]. split; [exact Hacc|].
    split; reflexivity.
Qed.

Lemma provision_positions_post (s : Store.t) a rest :
  Store.account_rows a s ≠ [] ->
  exists s1 evs,
    provision_positions sch dbm (a :: rest) s = Build_Run (Returned tt) s1 evs /\
    Store.positions_of a s1 ≠ [] /\
    Store.users_table s1 = Store.users_table s /\
    Store.accounts_table s1 = Store.accounts_table s /\
    Forall (fun ev => forall key acc, ev ≠ EvCreateAccount key acc) evs.
Proof.
  intros Hrows. destruct (Store.positions_of a s) as [|p ps] eqn:Hpos.
  - rewrite (provision_positions_added s a rest Hpos Hrows).
    eexists _, _. split; [reflexivity|]. repeat split.
    + intros Hnone.
      assert (Hin : test_position a ("GLD", 25 # 1)
                    ∈ Store.positions_of a (with_test_positions a s)).
      { apply list_elem_of_filter. split; [reflexivity|].
        unfold with_test_positions, test_positions.
        cbn [foldl Store.insert_position Store.positions_table].
        apply elem_of_app. right. left. }
      rewrite Hnone in Hin. inversion Hin.
    + repeat constructor; discriminate.
  - rewrite (provision_positions_found s a rest p ps Hpos).
    eexists _, _. split; [reflexivity|]. repeat split.
    + now rewrite Hpos.
    + repeat constructor; discriminate.
Qed.
(** C2. On a store whose tables are empty, [create_test_data] returns and
    leaves exactly one user, [test_user_001]; exactly three accounts of
    that user, created in the order 401(k), Roth IRA, Taxable Brokerage;
    and exactly five positions, all in the first of these accounts, with
    the pairs (SPY,100), (QQQ,50), (BND,200), (VEA,150), (GLD,25). *)
Theorem fresh_fixture_shape (n : nat) :
  years_min ≤ 25 ≤ years_max ->
  let r := create_test_data sch dbm (Store.empty n) in
  outcome r = Returned tt /\
  map clerk_user_id (Store.users_table (final r)) = ["test_user_001"] /\
  Store.accounts_table (final r) =
    [{| id := n; owner := "test_user_001"; columns := account_401k |};
     {| id := Datatypes.S n; owner := "test_user_001"; columns := account_roth |};
     {| id := Datatypes.S (Datatypes.S n); owner := "test_user_001";
        columns := account_taxable |}] /\
  map (fun a => account_name (columns a)) (Store.accounts_table (final r)) =
    ["401(k)"; "Roth IRA"; "Taxable Brokerage"] /\
  map account_id (Store.positions_table (final r)) = [n; n; n; n; n] /\
  map (fun p => (symbol p, quantity p)) (Store.positions_table (final r)) =
    [("SPY", 100 # 1); ("QQQ", 50 # 1); ("BND", 200 # 1);
     ("VEA", 150 # 1); ("GLD", 25 # 1)].
Proof.
  intros Hyears. pose proof (user_data_valid Hyears) as Hok.
  set (s1 := Store.insert_user user_data (Store.empty n)).
  assert (Hacc : Store.accounts_of K (with_test_accounts s1) =
                 [{| id := n; owner := K; columns := account_401k |};
                  {| id := Datatypes.S n; owner := K; columns := account_roth |};
                  {| id := Datatypes.S (Datatypes.S n); owner := K;
                     columns := account_taxable |}]) by reflexivity.
  assert (Hrun : create_test_data sch dbm (Store.empty n) =
                 Build_Run (Returned tt)
                   (with_test_positions n (with_test_accounts s1))
                   ([EvPrint MsgCreatingTestUser; EvFindByClerkId K;
                     EvCreateUser user_data; EvPrint MsgCreatedUser] ++
                    [EvFindByUser K;
                     EvCreateAccount K account_401k;
                     EvPrint (MsgCreatedAccount "401(k)");
                     EvCreateAccount K account_roth;
                     EvPrint (MsgCreatedAccount "Roth IRA");
                     EvCreateAccount K account_taxable;
                     EvPrint (MsgCreatedAccount "Taxable Brokerage")] ++
                    EvFindByAccount n ::
                    flat_map (fun sq => [EvAddPosition (test_position n sq);
                                         EvPrint (MsgAddedPosition sq.2 sq.1)])
                             test_positions)).
  { unfold create_test_data.
    eapply run_bind; [rewrite (provision_user_run _ Hok); reflexivity|].
    eapply run_bind.
    - apply provision_accounts_created; [reflexivity|].
      intros H. vm_compute in H. discriminate.
    - apply provision_positions_added; [reflexivity|].
      apply (account_rows_of_owned _ K _ _ Hacc). }
  cbv zeta. rewrite Hrun. cbn [outcome final]. repeat split.
Qed.

Lemma provision_user_invalid (s : Store.t) :
  user_ok sch user_data = false ->
  provision_user sch dbm s =
  Build_Run (Raised (ValidationError "UserCreate")) s [EvPrint MsgCreatingTestUser].
Proof.
  intros Hok. unfold provision_user.
  now rewrite bind_print_run, bind_construct, Hok.
Qed.

(** C3. When the test user already owns at least one account, be it a
    single one of the three, [create_test_data] creates no account: it
    asks for none to be created and the accounts table stays as it was. *)
Theorem existing_account_blocks_creation (s : Store.t) :
  Store.accounts_of K s ≠ [] ->
  let r := create_test_data sch dbm s in
  Forall (fun ev => forall key a, ev ≠ EvCreateAccount key a) (events r) /\
  Store.accounts_table (final r) = Store.accounts_table s.
Proof.
  intros Hsome. cbv zeta.
  destruct (user_ok sch user_data) eqn:Hok.
  - destruct (provision_user_post s Hok)
      as (s1 & evs1 & Hrun1 & _ & Hat1 & _ & _ & Hev1).
    assert (Hacc : Store.accounts_of K s1 = Store.accounts_of K s).
    { unfold Store.accounts_of. now rewrite Hat1. }
    destruct (Store.accounts_of K s) as [|row rows] eqn:Hrows; [contradiction|].
    destruct (provision_positions_post s1 (id row) (map id rows)
                (account_rows_of_owned s1 K row rows Hacc))
      as (s3 & evs3 & Hrun3 & _ & _ & Hat3 & Hev3).
    assert (Hrun : create_test_data sch dbm s =
                   Build_Run (Returned tt) s3
                     (evs1 ++
                      [EvFindByUser K; EvPrint (MsgHasAccounts (length (row :: rows)))] ++
                      evs3)).
    { unfold create_test_data. eapply run_bind; [exact Hrun1|].
      eapply run_bind; [apply (provision_accounts_found s1 row rows Hacc)|exact Hrun3]. }
    rewrite Hrun. cbn [events final]. split; [|congruence].
    apply Forall_app. split; [exact Hev1|].
    apply Forall_app. split; [repeat constructor; discriminate|exact Hev3].
  - unfold create_test_data.
    rewrite (bind_raised _ _ s (ValidationError "UserCreate"))
      by now rewrite (provision_user_invalid s Hok).
    rewrite (provision_user_invalid s Hok). cbn [events final].
    split; [repeat constructor; discriminate|reflexivity].
Qed.
End FixtureOnStore.

(** ** The fixture on the reference store, for any order of the account lookup *)

Section FixtureOnListedStore.
Variables years_min years_max : Z.
Variable listing : list (AccountRow nat) -> list (AccountRow nat).

Local Abbreviation sch := (Store.schemas years_min years_max).
Local Abbreviation dbl := (Store.db_models_listed listing).
Local Abbreviation K := "test_user_001".

Lemma provision_user_listed (s : Store.t) :
  provision_user sch dbl s = provision_user sch Store.db_models s.
Proof. reflexivity. Qed.

Lemma provision_positions_listed (account_ids : list nat) (s : Store.t) :
  provision_positions sch dbl account_ids s =
  provision_positions sch Store.db_models account_ids s.
Proof. reflexivity. Qed.

Lemma provision_accounts_listed_found (s : Store.t) row rows :
  listing (Store.accounts_of K s) = row :: rows ->
  provision_accounts sch dbl s =
  Build_Run (Returned (map id (row :: rows))) s
    [EvFindByUser K; EvPrint (MsgHasAccounts (length (row :: rows)))].
Proof.
  intros Hacc. unfold provision_accounts.
  rewrite (bind_returned _ _ s test_accounts)
    by now rewrite (test_accounts_valid years_min years_max).
  rewrite (test_accounts_valid years_min years_max). cbn [outcome final events app].
  erewrite bind_call_success by reflexivity. rewrite Hacc. reflexivity.
Qed.

Lemma provision_accounts_listed_created (s : Store.t) :
  listing (Store.accounts_of K s) = [] ->
  Store.users_of K s ≠ [] ->
  provision_accounts sch dbl s =
  Build_Run
    (Returned [Store.next_id s; Datatypes.S (Store.next_id s);
               Datatypes.S (Datatypes.S (Store.next_id s))])
    (with_test_accounts s)
    [EvFindByUser K;
     EvCreateAccount K account_401k; EvPrint (MsgCreatedAccount "401(k)");
     EvCreateAccount K account_roth; EvPrint (MsgCreatedAccount "Roth IRA");
     EvCreateAccount K account_taxable;
     EvPrint (MsgCreatedAccount "Taxable Brokerage")].
Proof.
  intros Hacc Husers. unfold provision_accounts. etransitivity.
  { eapply run_bind; [apply (test_accounts_valid years_min years_max)|].
    eapply run_bind; [apply call_success; reflexivity|].
    rewrite Hacc. unfold test_accounts. cbn [for_append].
    eapply run_bind; [apply (create_account_run account_401k), Husers|].
    eapply run_bind; [apply (create_account_run account_roth), Husers|].
    eapply run_bind; [apply (create_account_run account_taxable), Husers|].
    reflexivity. }
  reflexivity.
Qed.

Hypothesis Hfirst : Store.oldest_first listing.

Lemma listing_nil : listing [] = [].
Proof.
  pose proof (Hfirst []) as H. destruct (listing []); [reflexivity|discriminate].
Qed.

Lemma listing_cons row rows : exists rest, listing (row :: rows) = row :: rest.
Proof.
  pose proof (Hfirst (row :: rows)) as H.
  destruct (listing (row :: rows)) as [|r rest]; [discriminate|].
  injection H as ->. eauto.
Qed.

Lemma provision_accounts_listed_post (s : Store.t) :
  Store.users_of K s ≠ [] ->
  exists first rest row rows s1 evs,
    provision_accounts sch dbl s = Build_Run (Returned (first :: rest)) s1 evs /\
    listing (Store.accounts_of K s1) = row :: rows /\
    id row = first /\
    Store.account_rows first s1 ≠ [] /\
    Store.users_table s1 = Store.users_table s /\
    Store.positions_table s1 = Store.positions_table s.
Proof.
  intros Husers. destruct (Store.accounts_of K s) as [|row0 rows0] eqn:Hacc.
  - assert (Hnew : Store.accounts_of K (with_test_accounts s) =
                   [{| id := Store.next_id s; owner := K; columns := account_401k |};
                    {| id := Datatypes.S (Store.next_id s); owner := K;
                       columns := account_roth |};
                    {| id := Datatypes.S (Datatypes.S (Store.next_id s)); owner := K;
                       columns := account_taxable |}]).
    { unfold Store.accounts_of, with_test_accounts, Store.insert_account.
      cbn [Store.accounts_table Store.next_id].
      rewrite !filter_app. fold (Store.accounts_of K s). rewrite Hacc.
      reflexivity. }
    destruct (listing_cons
                {| id := Store.next_id s; owner := K; columns := account_401k |}
                [{| id := Datatypes.S (Store.next_id s); owner := K;
                    columns := account_roth |};
                 {| id := Datatypes.S (Datatypes.S (Store.next_id s)); owner := K;
                    columns := account_taxable |}]) as [rows Hrows].
    rewrite provision_accounts_listed_created
      by (rewrite ?Hacc; auto using listing_nil).
    eexists _, _, _, rows, _, _. split; [reflexivity|].
    split; [rewrite Hnew; exact Hrows|]. split; [reflexivity|].
    split; [|split; reflexivity].
    exact (account_rows_of_owned _ K _ _ Hnew).
  - destruct (listing_cons row0 rows0) as [rows Hrows].
    rewrite (provision_accounts_listed_found s row0 rows)
      by (rewrite Hacc; exact Hrows).
    eexists _, _, row0, rows, _, _. split; [reflexivity|].
    split; [rewrite Hacc; exact Hrows|]. split; [reflexivity|].
    split; [|split; reflexivity].
    exact (account_rows_of_owned s K row0 rows0 Hacc).
Qed.

Lemma create_test_data_seeds (s : Store.t) :
  user_ok sch user_data = true ->
  exists s1 evs u us row rows p ps,
    create_test_data sch dbl s = Build_Run (Returned tt) s1 evs /\
    Store.users_of K s1 = u :: us /\
    listing (Store.accounts_of K s1) = row :: rows /\
    Store.positions_of (id row) s1 = p :: ps.
Proof.
  intros Hok.
  destruct (provision_user_post years_min years_max s Hok)
    as (s1 & evs1 & Hrun1 & Hu1 & _).
  destruct (provision_accounts_listed_post s1 Hu1)
    as (first & rest & row & rows & s2 & evs2 & Hrun2 & Hacc2 & Hid & Hrows2 & Hut2 & _).
  destruct (provision_positions_post years_min years_max s2 first rest Hrows2)
    as (s3 & evs3 & Hrun3 & Hpos3 & Hut3 & Hat3 & _).
  assert (Hu3 : Store.users_of K s3 ≠ []).
  { unfold Store.users_of in *. now rewrite Hut3, Hut2. }
  assert (Hacc3 : listing (Store.accounts_of K s3) = row :: rows).
  { unfold Store.accounts_of in *. now rewrite Hat3. }
  destruct (Store.users_of K s3) as [|u us] eqn:Hus; [contradiction|].
  rewrite <- Hid in Hpos3.
  destruct (Store.positions_of (id row) s3) as [|p ps] eqn:Hps; [contradiction|].
  exists s3, (evs1 ++ evs2 ++ evs3), u, us, row, rows, p, ps.
  split; [|auto]. unfold create_test_data.
  eapply run_bind; [exact Hrun1|]. eapply run_bind; [exact Hrun2|exact Hrun3].
Qed.

Lemma create_test_data_rerun (s : Store.t) u us row rows p ps :
  user_ok sch user_data = true ->
  Store.users_of K s = u :: us ->
  listing (Store.accounts_of K s) = row :: rows ->
  Store.positions_of (id row) s = p :: ps ->
  create_test_data sch dbl s =
  Build_Run (Returned tt) s
    [EvPrint MsgCreatingTestUser; EvFindByClerkId K; EvPrint MsgUserExists;
     EvFindByUser K; EvPrint (MsgHasAccounts (length (row :: rows)));
     EvFindByAccount (id row); EvPrint (MsgHasPositions (length (p :: ps)))].
Proof.
  intros Hok Hu Hacc Hpos. unfold create_test_data. etransitivity.
  { eapply run_bind.
    - rewrite provision_user_listed, (provision_user_run years_min years_max s Hok), Hu.
      reflexivity.
    - eapply run_bind; [apply (provision_accounts_listed_found s row rows Hacc)|].
      apply (provision_positions_found years_min years_max s (id row) (map id rows) p ps Hpos). }
  reflexivity.
Qed.

(** C1 (as the code has it). When the account lookup hands over the
    account inserted first at the head of its rows, running
    [create_test_data] a second time right after a first run inserts
    nothing: from every store the first run returns, and in the second
    the user lookup, the account lookup and the position lookup all find
    rows, so that it only reports what exists and leaves every table,
    and hence every row count, as the first run left it. *)
Theorem create_test_data_idempotent (s : Store.t) :
  years_min ≤ 25 ≤ years_max ->
  let r1 := create_test_data sch dbl s in
  let r2 := create_test_data sch dbl (final r1) in
  outcome r1 = Returned tt /\
  outcome r2 = Returned tt /\
  final r2 = final r1 /\
  Forall (fun ev => is_insert ev = false) (events r2) /\
  (exists accounts_found first_account positions_found,
     events r2 =
     [EvPrint MsgCreatingTestUser; EvFindByClerkId K; EvPrint MsgUserExists;
      EvFindByUser K; EvPrint (MsgHasAccounts accounts_found);
      EvFindByAccount first_account; EvPrint (MsgHasPositions positions_found)]) /\
  length (Store.users_table (final r2)) = length (Store.users_table (final r1)) /\
  length (Store.accounts_table (final r2)) = length (Store.accounts_table (final r1)) /\
  length (Store.positions_table (final r2)) = length (Store.positions_table (final r1)).
Proof.
  intros Hyears. pose proof (user_data_valid years_min years_max Hyears) as Hok.
  destruct (create_test_data_seeds s Hok)
    as (s1 & evs & u & us & row & rows & p & ps & Hrun & Hu & Hacc & Hpos).
  cbv zeta. rewrite Hrun. cbn [outcome final events].
  rewrite (create_test_data_rerun s1 u us row rows p ps Hok Hu Hacc Hpos).
  cbn [outcome final events]. repeat split.
  - repeat constructor.
  - eauto.
Qed.
End FixtureOnListedStore.

(** * The statements on concrete runs *)

(** Idempotence from empty tables, with years allowed between 0 and 50
    and a lookup that lists the oldest account first and the others
    newest first. *)
Lemma create_test_data_idempotent_witness :
  Store.oldest_first Scenario.oldest_then_newest /\
  0 ≤ 25 ≤ 50 /\
  let dbm := Store.db_models_listed Scenario.oldest_then_newest in
  let r1 := create_test_data (Store.schemas 0 50) dbm (Store.empty 0) in
  let r2 := create_test_data (Store.schemas 0 50) dbm (final r1) in
  final r2 = final r1.
Proof.
  assert (Hfirst : Store.oldest_first Scenario.oldest_then_newest).
  { intros [|row rows]; reflexivity. }
  assert (H : 0 ≤ 25 ≤ 50) by lia.
  split; [exact Hfirst|]. split; [exact H|].
  exact (proj1 (proj2 (proj2
           (create_test_data_idempotent 0 50 Scenario.oldest_then_newest Hfirst
              (Store.empty 0) H)))).
Defined.

(** C1 as the specification words it fails: with an account lookup that
    lists the newest account first, the first run on empty tables puts the
    five positions in account 0, the second run looks at account 2, finds
    it empty and adds the five positions again. *)
Lemma newest_first_lookup_repeats_positions :
  let dbm := Store.db_models_listed Scenario.newest_first in
  let r1 := create_test_data (Store.schemas 0 50) dbm (Store.empty 0) in
  let r2 := create_test_data (Store.schemas 0 50) dbm (final r1) in
  outcome r1 = Returned tt /\
  outcome r2 = Returned tt /\
  map account_id (Store.positions_table (final r1)) = [0; 0; 0; 0; 0]%nat /\
  map account_id (Store.positions_table (final r2)) =
    [0; 0; 0; 0; 0; 2; 2; 2; 2; 2]%nat /\
  ~ Forall (fun ev => is_insert ev = false) (events r2) /\
  length (Store.positions_table (final r2)) ≠
  length (Store.positions_table (final r1)).
Proof.
  cbv zeta. split; [vm_compute; reflexivity|].
  split; [vm_compute; reflexivity|].
  split; [vm_compute; reflexivity|].
  split; [vm_compute; reflexivity|].
  split.
  - intros Hall. apply Forall_forall with
      (x := EvAddPosition (test_position 2 ("SPY", 100 # 1))) in Hall.
    + discriminate Hall.
    + apply list_elem_of_In. vm_compute. do 6 right. left. reflexivity.
  - vm_compute. discriminate.
Qed.

(** The fixture on empty tables. *)
Lemma fresh_fixture_shape_witness :
  0 ≤ 25 ≤ 50 /\
  outcome (create_test_data (Store.schemas 0 50) Store.db_models (Store.empty 0)) =
  Returned tt.
Proof.
  assert (H : 0 ≤ 25 ≤ 50) by lia. split; [exact H|].
  exact (proj1 (fresh_fixture_shape 0 50 0%nat H)).
Defined.

(** One account out of three: the other two are not created. *)
Lemma existing_account_blocks_creation_witness :
  Store.accounts_of "test_user_001" Scenario.partial_store ≠ [] /\
  Store.accounts_table
    (final (create_test_data (Store.schemas 0 50) Store.db_models Scenario.partial_store)) =
  Store.accounts_table Scenario.partial_store.
Proof.
  assert (H : Store.accounts_of "test_user_001" Scenario.partial_store ≠ []).
  { intros Hnil. vm_compute in Hnil. discriminate Hnil. }
  split; [exact H|].
  exact (proj2 (existing_account_blocks_creation 0 50 Scenario.partial_store H)).
Defined.

(** A full reset whose migrations exit with status 1. *)
Lemma migration_failure_is_fatal_witness :
  skip_drop Scenario.full_reset = false /\
  outcome (main Scenario.os_failed_migration Scenario.client Store.db_models
             (Store.schemas 0 50) Scenario.full_reset (Store.empty 0)) = Exited 1.
Proof.
  split; [reflexivity|].
  refine (proj1 (migration_failure_is_fatal
                   Scenario.os_failed_migration Scenario.client Store.db_models
                   (Store.schemas 0 50) Scenario.full_reset (Store.empty 0) (Store.empty 0)
                   {| returncode := 1; stdout := ""; stderr := "migration 001 failed" |}
                   _ _ _)).
  - reflexivity.
  - vm_compute. reflexivity.
  - cbn. lia.
Defined.

(** A reload with [--skip-drop]. *)
Lemma skip_drop_goes_to_seed_witness :
  skip_drop Scenario.reload_only = true /\
  Forall (fun ev : Event nat => is_execute ev = false /\ ev ≠ EvRun migrate_cmd)
    (events (main Scenario.os_ok Scenario.client Store.db_models
               (Store.schemas 0 50) Scenario.reload_only (Store.empty 0))).
Proof.
  split; [reflexivity|].
  exact (proj1 (skip_drop_goes_to_seed Scenario.os_ok Scenario.client Store.db_models
                  (Store.schemas 0 50) Scenario.reload_only (Store.empty 0) eq_refl)).
Defined.

(** A loader that prints something else than the instrument count. *)
Lemma missing_sentinel_is_harmless_witness :
  str_in "22/22 instruments loaded" "seed data written" = false /\
  same_but_summary
    (main (with_stdout "seed data written" Scenario.os_ok) Scenario.client
          Store.db_models (Store.schemas 0 50) Scenario.reload_only (Store.empty 0))
    (main Scenario.os_ok Scenario.client
          Store.db_models (Store.schemas 0 50) Scenario.reload_only (Store.empty 0)).
Proof.
  split; [reflexivity|].
  exact (proj2 (missing_sentinel_is_harmless Scenario.os_ok Scenario.client
                  Store.db_models (Store.schemas 0 50) "seed data written"
                  Scenario.reload_only (Store.empty 0) eq_refl)).
Defined.

(** The SPY position of the fresh fixture sits in account 0. *)
Lemma positions_only_in_first_account_witness :
  EvAddPosition (test_position 0 ("SPY", 100 # 1))
    ∈ events (create_test_data (Store.schemas 0 50) Store.db_models (Store.empty 0)) /\
  exists account_ids rest,
    outcome (provision_owner (Store.schemas 0 50) Store.db_models (Store.empty 0)) =
      Returned account_ids /\
    account_ids = 0%nat :: rest /\
    (Store.find_by_account 0
       (final (provision_owner (Store.schemas 0 50) Store.db_models (Store.empty 0)))).1 =
      Success [].
Proof.
  assert (H : EvAddPosition (test_position 0 ("SPY", 100 # 1))
              ∈ events (create_test_data (Store.schemas 0 50) Store.db_models
                          (Store.empty 0))).
  { apply list_elem_of_In. vm_compute. do 12 right. left. reflexivity. }
  split; [exact H|].
  exact (positions_only_in_first_account (Store.schemas 0 50) Store.db_models
           (Store.empty 0) (test_position 0 ("SPY", 100 # 1)) H).
Defined.

(** The account step on a store that holds one account. *)
Lemma account_ids_never_empty_witness :
  outcome (provision_accounts (Store.schemas 0 50) Store.db_models Scenario.partial_store) =
    Returned [0%nat] /\
  exists first rest,
    [0%nat] = first :: rest /\
    forall s1, exists tail,
      events (provision_positions (Store.schemas 0 50) Store.db_models [0%nat] s1) =
      EvFindByAccount first :: tail.
Proof.
  split; [reflexivity|].
  exact (account_ids_never_empty (Store.schemas 0 50) Store.db_models
           Scenario.partial_store [0%nat] eq_refl).
Defined.

(** C7 as the specification words it fails: with the schema missing, the
    first count query raises, nothing catches it, and the run ends with
    that exception instead of finishing. *)
Lemma count_error_fails_the_run :
  outcome (final_verification (Id := nat) Scenario.client_without_schema (Store.empty 0)) =
    Raised (DatabaseError "relation does not exist") /\
  outcome (main Scenario.os_ok Scenario.client_without_schema Store.db_models
             (Store.schemas 0 50) Scenario.reload_only (Store.empty 0)) =
    Raised (DatabaseError "relation does not exist").
Proof. split; vm_compute; reflexivity. Qed.

(** * Further properties of the script *)

(** ** More on running composed scripts *)

Section MoreRunLemmas.
Context {S Id : Type}.

Lemma events_bind {A B} (m : M S Id A) (k : A -> M S Id B) s :
  events (bind m k s) =
  events (m s) ++
  match outcome (m s) with
  | Returned a => events (k a (final (m s)))
  | _ => []
  end.
Proof. unfold bind. destruct (outcome (m s)); cbn; now rewrite ?app_nil_r. Qed.

Lemma never_exits_ret {A} (a : A) : never_exits (S := S) (Id := Id) (ret a).
Proof. intros s c. discriminate. Qed.

Lemma never_exits_raise {A} e : never_exits (S := S) (Id := Id) (raise (A := A) e).
Proof. intros s c. discriminate. Qed.

Lemma never_exits_print m : never_exits (S := S) (Id := Id) (print m).
Proof. intros s c. discriminate. Qed.

Lemma never_exits_call {A} ev (op : Op S A) : never_exits (Id := Id) (call ev op).
Proof. intros s c. unfold call. destruct (op s) as [[a|e] s1]; discriminate. Qed.

Lemma never_exits_lift {A} (r : Result A) : never_exits (S := S) (Id := Id) (lift r).
Proof. destruct r; [apply never_exits_ret | apply never_exits_raise]. Qed.

Lemma never_exits_construct {A} (ok : A -> bool) model fields :
  never_exits (S := S) (Id := Id) (construct ok model fields).
Proof.
  unfold construct. destruct (ok fields); [apply never_exits_ret | apply never_exits_raise].
Qed.

Lemma never_exits_bind {A B} (m : M S Id A) (k : A -> M S Id B) :
  never_exits m -> (forall a, never_exits (k a)) -> never_exits (bind m k).
Proof.
  intros Hm Hk s c. rewrite outcome_bind. specialize (Hm s).
  destruct (outcome (m s)) as [a| |c0]; [apply Hk|discriminate|].
  now destruct (Hm c0).
Qed.

Lemma never_exits_try_except {A} (body : M S Id A) handler :
  never_exits body -> (forall e, never_exits (handler e)) ->
  never_exits (try_except body handler).
Proof.
  intros Hb Hh s c. unfold try_except. specialize (Hb s).
  destruct (outcome (body s)) as [a|e|c0] eqn:Hout; cbn [outcome].
  - rewrite Hout. discriminate.
  - apply Hh.
  - now destruct (Hb c0).
Qed.

Lemma never_exits_for_each {A} (xs : list A) (body : A -> M S Id unit) :
  (forall x, never_exits (body x)) -> never_exits (for_each xs body).
Proof.
  intros Hb. induction xs as [|x xs IH]; cbn [for_each].
  - apply never_exits_ret.
  - apply never_exits_bind; auto.
Qed.

Lemma never_exits_for_append {A B} (xs : list A) (body : A -> M S Id B) acc :
  (forall x, never_exits (body x)) -> never_exits (for_append xs body acc).
Proof.
  intros Hb. revert acc. induction xs as [|x xs IH]; intros acc; cbn [for_append].
  - apply never_exits_ret.
  - apply never_exits_bind; auto.
Qed.
End MoreRunLemmas.

(** Decompose a script along its structure, as [emits_step] does. *)
Ltac never_exits_step :=
  match goal with
  | |- never_exits (bind _ _) => apply never_exits_bind; [|intros ?]
  | |- never_exits (try_except _ _) => apply never_exits_try_except; [|intros ?]
  | |- never_exits (for_each _ _) => apply never_exits_for_each; intros ?
  | |- never_exits (for_append _ _ _) => apply never_exits_for_append; intros ?
  | |- never_exits (print _) => apply never_exits_print
  | |- never_exits (call _ _) => apply never_exits_call
  | |- never_exits (ret _) => apply never_exits_ret
  | |- never_exits (raise _) => apply never_exits_raise
  | |- never_exits (lift _) => apply never_exits_lift
  | |- never_exits (construct _ _ _) => apply never_exits_construct
  | |- never_exits (match ?x with _ => _ end) => destruct x
  | |- never_exits (if ?b then _ else _) => destruct b
  | |- never_exits (let _ := _ in _) => cbv zeta
  end.

Section StepsNeverExit.
Context {S Id : Type}.
Variable db : DataAPIClient S.
Variable db_models : Database S Id.
Variable sch : Schemas Id.

Lemma drop_all_tables_never_exits : never_exits (drop_all_tables (Id := Id) db).
Proof. unfold drop_all_tables. repeat never_exits_step. Qed.

Lemma create_test_data_never_exits : never_exits (create_test_data sch db_models).
Proof.
  unfold create_test_data, provision_user, provision_accounts, provision_positions.
  repeat never_exits_step.
Qed.

Lemma final_verification_never_exits : never_exits (final_verification (Id := Id) db).
Proof. unfold final_verification. repeat never_exits_step. Qed.
End StepsNeverExit.

(** ** The orchestrator, step by step *)

Section MainBySteps.
Context {S Id : Type}.
Variable os : Subprocess S.
Variable db : DataAPIClient S.
Variable db_models : Database S Id.
Variable sch : Schemas Id.

Lemma main_from_seed (args : Args) (s : S) :
  main os db db_models sch args s =
  bind (before_seed os db args) (fun _ => seed_onwards os db db_models sch args) s.
Proof.
  unfold main, before_seed, seed_onwards, fixture_onwards, closing_lines.
  rewrite bind_assoc, !bind_print_run, bind_assoc, !bind_print_run.
  reflexivity.
Qed.

Lemma seed_onwards_from_fixture (args : Args) (s : S) :
  seed_onwards os db db_models sch args s =
  bind (load_seed_data os) (fun _ => fixture_onwards db db_models sch args) s.
Proof. reflexivity. Qed.
Lemma main_from_fixture (args : Args) (s : S) :
  main os db db_models sch args s =
  bind (before_fixture os db args) (fun _ => fixture_onwards db db_models sch args) s.
Proof.
  unfold main, before_fixture, fixture_onwards, closing_lines.
  rewrite bind_assoc. apply bind_ext. intros _ s1.
  rewrite bind_assoc. apply bind_ext. intros _ s2.
  rewrite bind_assoc. apply bind_ext. intros _ s3.
  reflexivity.
Qed.

Lemma before_seed_emits (args : Args) :
  emits (fun ev => is_model_call ev = false /\ is_query ev = false)
        (before_seed (Id := Id) os db args).
Proof.
  unfold before_seed, drop_and_migrate, drop_all_tables.
  repeat emits_step; split; reflexivity.
Qed.

Lemma load_seed_data_failed (s s1 : S) (cp : CompletedProcess) :
  os seed_cmd s = (Success cp, s1) ->
  returncode cp ≠ 0 ->
  load_seed_data (Id := Id) os s =
  Build_Run (Exited 1) s1
    [EvPrint MsgLoadingSeed; EvRun seed_cmd;
     EvPrint MsgSeedFailed; EvPrint (MsgText (stderr cp))].
Proof.
  intros Hrun Hrc. unfold load_seed_data.
  rewrite bind_print_run, (bind_call_success _ _ _ _ _ _ Hrun).
  destruct (decide (returncode cp ≠ 0)); [reflexivity|contradiction].
Qed.

Lemma load_seed_data_raised (s s1 : S) (e : Exception) :
  os seed_cmd s = (Failure e, s1) ->
  load_seed_data (Id := Id) os s =
  Build_Run (Raised e) s1 [EvPrint MsgLoadingSeed; EvRun seed_cmd].
Proof.
  intros Hrun. unfold load_seed_data.
  now rewrite bind_print_run, (bind_call_failure _ _ _ _ _ _ Hrun).
Qed.

(** When the seed loader comes back with a non-zero exit status, [main]
    prints the captured stderr and exits with code 1; neither the test
    data nor the record counts are touched.  This holds with and without
    [--skip-drop]. *)
Theorem seed_failure_is_fatal (args : Args) (s s1 : S) (cp : CompletedProcess) :
  outcome (before_seed (Id := Id) os db args s) = Returned tt ->
  os seed_cmd (final (before_seed (Id := Id) os db args s)) = (Success cp, s1) ->
  returncode cp ≠ 0 ->
  let r := main os db db_models sch args s in
  outcome r = Exited 1 /\
  final r = s1 /\
  events r =
    events (before_seed (Id := Id) os db args s) ++
    [EvPrint MsgLoadingSeed; EvRun seed_cmd;
     EvPrint MsgSeedFailed; EvPrint (MsgText (stderr cp))] /\
  Forall (fun ev => is_model_call ev = false /\ is_query ev = false) (events r).
Proof.
  intros Hbefore Hrun Hrc. cbv zeta.
  rewrite main_from_seed, (bind_returned _ _ s tt Hbefore).
  rewrite seed_onwards_from_fixture.
  rewrite (bind_exited _ _ _ 1) by now rewrite (load_seed_data_failed _ _ _ Hrun Hrc).
  rewrite (load_seed_data_failed _ _ _ Hrun Hrc). cbn [outcome final events].
  repeat split.
  apply Forall_app. split; [apply before_seed_emits|].
  repeat constructor.
Qed.

(** When the seed loader cannot even be started, [subprocess.run] raises
    and nothing catches it: [main] ends with that exception right after
    the launch, without touching the test data or the record counts. *)
Theorem seed_launch_error_propagates (args : Args) (s s1 : S) (e : Exception) :
  outcome (before_seed (Id := Id) os db args s) = Returned tt ->
  os seed_cmd (final (before_seed (Id := Id) os db args s)) = (Failure e, s1) ->
  let r := main os db db_models sch args s in
  outcome r = Raised e /\
  final r = s1 /\
  events r =
    events (before_seed (Id := Id) os db args s) ++
    [EvPrint MsgLoadingSeed; EvRun seed_cmd] /\
  Forall (fun ev => is_model_call ev = false /\ is_query ev = false) (events r).
Proof.
  intros Hbefore Hrun. cbv zeta.
  rewrite main_from_seed, (bind_returned _ _ s tt Hbefore).
  rewrite seed_onwards_from_fixture.
  rewrite (bind_raised _ _ _ e) by now rewrite (load_seed_data_raised _ _ _ Hrun).
  rewrite (load_seed_data_raised _ _ _ Hrun). cbn [outcome final events].
  repeat split.
  apply Forall_app. split; [apply before_seed_emits|].
  repeat constructor.
Qed.
End MainBySteps.

Section MainOutcomes.
Context {S Id : Type}.
Variable os : Subprocess S.
Variable db : DataAPIClient S.
Variable db_models : Database S Id.
Variable sch : Schemas Id.

Lemma before_seed_run (args : Args) (s : S) :
  before_seed (Id := Id) os db args s =
  Build_Run (outcome (drop_and_migrate (Id := Id) os db args s))
            (final (drop_and_migrate (Id := Id) os db args s))
            (EvPrint MsgBanner :: EvPrint MsgRule ::
             events (drop_and_migrate (Id := Id) os db args s)).
Proof. reflexivity. Qed.

Lemma drop_and_migrate_exit (args : Args) (s : S) (c : Z) :
  outcome (drop_and_migrate (Id := Id) os db args s) = Exited c ->
  c = 1 /\ EvPrint MsgMigrationFailed ∈ events (drop_and_migrate (Id := Id) os db args s).
Proof.
  unfold drop_and_migrate. destruct (skip_drop args); cbn [negb]; [discriminate|].
  rewrite (bind_returned _ _ s tt) by apply drop_all_tables_run.
  rewrite bind_print_run. cbn [outcome events].
  destruct (os migrate_cmd (final (drop_all_tables (Id := Id) db s)))
    as [[cp|e] s1] eqn:Hrun.
  - rewrite (bind_call_success _ _ _ _ _ _ Hrun).
    destruct (decide (returncode cp ≠ 0)); cbn -[drop_all_tables]; [|discriminate].
    intros [= <-]. split; trivial.
    apply elem_of_app. right. do 2 right. left.
  - rewrite (bind_call_failure _ _ _ _ _ _ Hrun). discriminate.
Qed.

Lemma load_seed_data_exit (s : S) (c : Z) :
  outcome (load_seed_data (Id := Id) os s) = Exited c ->
  c = 1 /\ EvPrint MsgSeedFailed ∈ events (load_seed_data (Id := Id) os s).
Proof.
  unfold load_seed_data. rewrite bind_print_run. cbn [outcome events].
  destruct (os seed_cmd s) as [[cp|e] s1] eqn:Hrun.
  - rewrite (bind_call_success _ _ _ _ _ _ Hrun).
    destruct (decide (returncode cp ≠ 0)); cbn.
    + intros [= <-]. split; trivial. do 2 right. left.
    + destruct (str_in _ _); discriminate.
  - rewrite (bind_call_failure _ _ _ _ _ _ Hrun). discriminate.
Qed.

Lemma fixture_onwards_never_exits (args : Args) :
  never_exits (fixture_onwards db db_models sch args).
Proof.
  unfold fixture_onwards, closing_lines.
  repeat never_exits_step;
    auto using create_test_data_never_exits, final_verification_never_exits.
Qed.

(** Once the command line is parsed, the two [sys.exit(1)] of [main] are
    the only ways it exits: a run that ends in [sys.exit] ends with code 1,
    after the line that reports that the migrations or the seed data
    failed. *)
Theorem main_exits_only_with_one (args : Args) (s : S) (c : Z) :
  outcome (main os db db_models sch args s) = Exited c ->
  c = 1 /\
  (EvPrint MsgMigrationFailed ∈ events (main os db db_models sch args s) \/
   EvPrint MsgSeedFailed ∈ events (main os db db_models sch args s)).
Proof.
  rewrite main_from_seed, outcome_bind, events_bind, !before_seed_run.
  cbn [outcome final events].
  destruct (outcome (drop_and_migrate os db args s)) as [[]| |c0] eqn:Hdm.
  - rewrite seed_onwards_from_fixture, outcome_bind, events_bind.
    destruct (outcome (load_seed_data os _)) as [[]| |c1] eqn:Hseed.
    + intros H. now apply fixture_onwards_never_exits in H.
    + discriminate.
    + intros [= <-]. apply load_seed_data_exit in Hseed as [-> Hin].
      split; trivial. right.
      do 2 right. apply elem_of_app. right. apply elem_of_app. now left.
  - discriminate.
  - intros [= <-]. apply drop_and_migrate_exit in Hdm as [-> Hin].
    split; trivial. left. do 2 right. apply elem_of_app. now left.
Qed.

(** Without [--with-test-data], [main] makes no call to the table models,
    prints none of the progress lines of [create_test_data] and none of
    the four closing lines on the test user. *)
Theorem no_test_data_without_flag (args : Args) (s : S) :
  with_test_data args = false ->
  Forall (fun ev => is_model_call ev = false /\
                    is_fixture_line ev = false /\
                    is_test_user_summary ev = false)
         (events (main os db db_models sch args s)).
Proof.
  intros Hflag. revert s.
  change (emits (fun ev => is_model_call ev = false /\
                           is_fixture_line ev = false /\
                           is_test_user_summary ev = false)
                (main os db db_models sch args)).
  unfold main, drop_and_migrate, drop_all_tables, load_seed_data, final_verification.
  rewrite Hflag. repeat emits_step; repeat split.
Qed.
End MainOutcomes.

Section MainOrder.
Context {S Id : Type}.
Variable os : Subprocess S.
Variable db : DataAPIClient S.
Variable db_models : Database S Id.
Variable sch : Schemas Id.

Lemma launched_app (evs1 evs2 : list (Event Id)) :
  launched (evs1 ++ evs2) = launched evs1 ++ launched evs2.
Proof. apply omap_app. Qed.

Lemma launched_none (evs : list (Event Id)) :
  Forall (fun ev => is_run ev = false) evs -> launched evs = [].
Proof.
  induction 1 as [|ev evs Hev _ IH]; trivial.
  destruct ev; try discriminate; exact IH.
Qed.

Lemma executed_app (evs1 evs2 : list (Event Id)) :
  executed (evs1 ++ evs2) = executed evs1 ++ executed evs2.
Proof. apply omap_app. Qed.

Lemma executed_none (evs : list (Event Id)) :
  Forall (fun ev => is_execute ev = false) evs -> executed evs = [].
Proof.
  induction 1 as [|ev evs Hev _ IH]; trivial.
  destruct ev; try discriminate; exact IH.
Qed.

Lemma drop_all_tables_launches_nothing (s : S) :
  launched (events (drop_all_tables (Id := Id) db s)) = [].
Proof.
  apply launched_none. eapply Forall_impl; [apply drop_all_tables_quiet|].
  now intros ev [H _].
Qed.

Lemma fixture_onwards_quiet (args : Args) :
  emits (fun ev => is_run ev = false /\ is_execute ev = false)
        (fixture_onwards db db_models sch args).
Proof.
  unfold fixture_onwards, closing_lines, create_test_data, provision_user,
    provision_accounts, provision_positions, final_verification.
  repeat emits_step; split; reflexivity.
Qed.

(** What the migration step launches and how it ends. *)
Lemma drop_and_migrate_launches (args : Args) (s : S) :
  if skip_drop args
  then drop_and_migrate (Id := Id) os db args s = Build_Run (Returned tt) s []
  else launched (events (drop_and_migrate (Id := Id) os db args s)) = [migrate_cmd].
Proof.
  unfold drop_and_migrate. destruct (skip_drop args); cbn [negb]; [reflexivity|].
  rewrite events_bind, launched_app, drop_all_tables_launches_nothing.
  destruct (drop_all_tables_run (Id := Id) db s) as [-> _].
  rewrite bind_print_run. cbn [events app].
  destruct (os migrate_cmd (final (drop_all_tables (Id := Id) db s)))
    as [[cp|e] s1] eqn:Hrun.
  - rewrite (bind_call_success _ _ _ _ _ _ Hrun).
    destruct (decide (returncode cp ≠ 0)); reflexivity.
  - now rewrite (bind_call_failure _ _ _ _ _ _ Hrun).
Qed.

Lemma load_seed_data_launches (s : S) :
  launched (events (load_seed_data (Id := Id) os s)) = [seed_cmd].
Proof.
  unfold load_seed_data. rewrite bind_print_run. cbn [events].
  destruct (os seed_cmd s) as [[cp|e] s1] eqn:Hrun.
  - rewrite (bind_call_success _ _ _ _ _ _ Hrun).
    destruct (decide (returncode cp ≠ 0)); [reflexivity|].
    destruct (str_in _ _); reflexivity.
  - now rewrite (bind_call_failure _ _ _ _ _ _ Hrun).
Qed.

(** [main] starts at most two child processes and only these: with
    [--skip-drop] the seed loader alone; otherwise the migrations, followed
    by the seed loader or by nothing.  The seed loader is never started
    before the migrations and no process is started twice. *)
Theorem main_launch_order (args : Args) (s : S) :
  let started := launched (events (main os db db_models sch args s)) in
  if skip_drop args
  then started = [seed_cmd]
  else started = [migrate_cmd] \/ started = [migrate_cmd; seed_cmd].
Proof.
  cbv zeta. rewrite main_from_seed, events_bind, launched_app, !before_seed_run.
  cbn [outcome final events].
  change (launched (EvPrint MsgBanner :: EvPrint MsgRule :: ?l)) with (launched l).
  assert (Hrest : forall s1,
             launched (events (seed_onwards os db db_models sch args s1)) = [seed_cmd]).
  { intros s1. rewrite seed_onwards_from_fixture, events_bind, launched_app.
    rewrite load_seed_data_launches.
    destruct (outcome (load_seed_data os s1)); trivial.
    cbn [app]. f_equal. apply launched_none.
    eapply Forall_impl; [apply fixture_onwards_quiet|]. now intros ev [H _]. }
  pose proof (drop_and_migrate_launches args s) as Hdm.
  destruct (skip_drop args).
  - rewrite Hdm. cbn [outcome final events app]. apply Hrest.
  - rewrite Hdm. destruct (outcome (drop_and_migrate os db args s)).
    + right. now rewrite Hrest.
    + now left.
    + now left.
Qed.

Lemma drop_and_migrate_events (args : Args) (s : S) :
  skip_drop args = false ->
  exists tail,
    events (drop_and_migrate (Id := Id) os db args s) =
      events (drop_all_tables (Id := Id) db s) ++ tail /\
    Forall (fun ev => is_execute ev = false) tail.
Proof.
  intros Hskip. unfold drop_and_migrate. rewrite Hskip. cbn [negb].
  rewrite events_bind.
  destruct (drop_all_tables_run (Id := Id) db s) as [-> _].
  eexists. split; [reflexivity|].
  assert (Hdm : emits (Id := Id) (fun ev => is_execute ev = false)
                  (print MsgRunningMigrations ;;;
                   result <- call (EvRun migrate_cmd) (os migrate_cmd) ;;
                   if decide (returncode result ≠ 0) then
                     print MsgMigrationFailed ;;;
                     print (MsgText (stderr result)) ;;;
                     sys_exit 1
                   else print MsgMigrationsCompleted))
    by (repeat emits_step; reflexivity).
  apply Hdm.
Qed.

(** Without [--skip-drop] the six drop statements are always issued, right
    after the banner and before anything else, whatever happens later in
    the run; no other statement is ever executed. *)
Theorem drops_come_first (args : Args) (s : S) :
  skip_drop args = false ->
  let r := main os db db_models sch args s in
  executed (events r) = map drop_table_sql tables_to_drop ++ [drop_function_sql] /\
  exists rest,
    events r =
      [EvPrint MsgBanner; EvPrint MsgRule] ++
      events (drop_all_tables (Id := Id) db s) ++ rest /\
    Forall (fun ev => is_execute ev = false) rest.
Proof.
  intros Hskip. cbv zeta.
  assert (Hsplit : exists rest,
             events (main os db db_models sch args s) =
               [EvPrint MsgBanner; EvPrint MsgRule] ++
               events (drop_all_tables (Id := Id) db s) ++ rest /\
             Forall (fun ev => is_execute ev = false) rest).
  { rewrite main_from_seed, events_bind, !before_seed_run.
    cbn [outcome final events].
    destruct (drop_and_migrate_events args s Hskip) as (tail & -> & Htail).
    eexists. split.
    { cbn [app]. rewrite <- !app_assoc. reflexivity. }
    apply Forall_app. split; [exact Htail|].
    match goal with
    | |- Forall _ (match ?o with _ => _ end) => destruct o as [[]| |]
    end; [|constructor|constructor].
    rewrite seed_onwards_from_fixture, events_bind.
    apply Forall_app. split.
    + eapply Forall_impl; [apply load_seed_data_emits|].
      intros ev [Hp| ->]; [now destruct ev|reflexivity].
    + destruct (outcome (load_seed_data os _)); [|constructor|constructor].
      eapply Forall_impl; [apply fixture_onwards_quiet|]. now intros ev [_ H]. }
  destruct Hsplit as (rest & Hev & Hrest). split; [|now exists rest].
  rewrite Hev. change ([EvPrint MsgBanner; EvPrint MsgRule] ++ ?l)
    with (EvPrint (Id := Id) MsgBanner :: EvPrint MsgRule :: l).
  change (executed (EvPrint MsgBanner :: EvPrint MsgRule :: ?l)) with (executed l).
  rewrite executed_app, (executed_none rest Hrest), app_nil_r.
  destruct (drop_all_tables_run (Id := Id) db s) as (_ & evs & Hevs & Hlog).
  rewrite Hevs. apply teardown_log_executed in Hlog. exact Hlog.
Qed.
End MainOrder.

Section MainCompletion.
Context {S Id : Type}.
Variable os : Subprocess S.
Variable db : DataAPIClient S.
Variable db_models : Database S Id.
Variable sch : Schemas Id.

Lemma before_fixture_emits (args : Args) :
  emits (fun ev => is_query ev = false /\ ev ≠ EvPrint MsgResetComplete)
        (before_fixture (Id := Id) os db args).
Proof.
  unfold before_fixture, drop_and_migrate, drop_all_tables, load_seed_data.
  repeat emits_step; split; (reflexivity || discriminate).
Qed.

Lemma create_test_data_emits_no_count :
  emits (fun ev => is_query ev = false /\ ev ≠ EvPrint MsgResetComplete)
        (create_test_data sch db_models).
Proof.
  unfold create_test_data, provision_user, provision_accounts, provision_positions.
  repeat emits_step; split; (reflexivity || discriminate).
Qed.

(** An exception out of [create_test_data] is not caught by [main]: the
    run ends with it, in the store the provisioning left, without a count
    query and without the completion line. *)
Theorem fixture_error_propagates (args : Args) (s : S) (e : Exception) :
  with_test_data args = true ->
  outcome (before_fixture (Id := Id) os db args s) = Returned tt ->
  outcome (create_test_data sch db_models
             (final (before_fixture (Id := Id) os db args s))) = Raised e ->
  let r := main os db db_models sch args s in
  outcome r = Raised e /\
  final r = final (create_test_data sch db_models
                     (final (before_fixture (Id := Id) os db args s))) /\
  Forall (fun ev => is_query ev = false /\ ev ≠ EvPrint MsgResetComplete) (events r).
Proof.
  intros Hflag Hbefore Hraise. cbv zeta.
  rewrite main_from_fixture, (bind_returned _ _ s tt Hbefore).
  cbn [outcome final events]. unfold fixture_onwards. rewrite Hflag.
  rewrite (bind_raised _ _ _ e Hraise). cbn [outcome final events].
  repeat split.
  apply Forall_app. split; [apply before_fixture_emits|].
  apply create_test_data_emits_no_count.
Qed.

(** For a script that prints no completion line: the line shows up in a
    sequence exactly when the script returns and the rest prints it. *)
Lemma completion_after (m k : M S Id unit) (s : S) :
  emits (fun ev => ev ≠ EvPrint MsgResetComplete) m ->
  (forall s1, EvPrint MsgResetComplete ∈ events (k s1) <-> outcome (k s1) = Returned tt) ->
  EvPrint MsgResetComplete ∈ events (bind m (fun _ => k) s) <->
  outcome (bind m (fun _ => k) s) = Returned tt.
Proof.
  intros Hm Hk. rewrite events_bind, outcome_bind. specialize (Hm s).
  rewrite Forall_forall in Hm.
  assert (Hnot : ~ EvPrint MsgResetComplete ∈ events (m s)).
  { intros Hin. now apply Hm in Hin. }
  rewrite elem_of_app.
  destruct (outcome (m s)) as [[]| |].
  - rewrite <- Hk. tauto.
  - split; [intros [H|H]; [contradiction|inversion H]|discriminate].
  - split; [intros [H|H]; [contradiction|inversion H]|discriminate].
Qed.

Lemma steps_print_no_completion (args : Args) :
  emits (fun ev => ev ≠ EvPrint MsgResetComplete) (drop_and_migrate (Id := Id) os db args) /\
  emits (fun ev => ev ≠ EvPrint MsgResetComplete) (load_seed_data (Id := Id) os) /\
  emits (fun ev => ev ≠ EvPrint MsgResetComplete) (final_verification (Id := Id) db).
Proof.
  unfold drop_and_migrate, drop_all_tables, load_seed_data, final_verification.
  repeat split; repeat emits_step; discriminate.
Qed.

(** The line "Database reset complete!" is printed exactly by the runs of
    [main] that return: a run that raised or exited never shows it, and a
    run that returned always does. *)
Theorem completion_line_means_success (args : Args) (s : S) :
  EvPrint MsgResetComplete ∈ events (main os db db_models sch args s) <->
  outcome (main os db db_models sch args s) = Returned tt.
Proof.
  revert s. unfold main.
  intros s. apply completion_after; [apply emits_print; discriminate|]. clear s.
  intros s. apply completion_after; [apply emits_print; discriminate|]. clear s.
  destruct (steps_print_no_completion args) as (Hdm & Hseed & Hcount).
  intros s. apply completion_after; [exact Hdm|]. clear s.
  intros s. apply completion_after; [exact Hseed|]. clear s.
  intros s. apply completion_after.
  { destruct (with_test_data args); [|apply emits_ret].
    eapply emits_weaken; [|apply create_test_data_emits_no_count]. now intros ev [_ H]. }
  clear s. intros s. apply completion_after; [exact Hcount|].
  clear s. intros s. apply completion_after; [apply emits_print; discriminate|].
  clear s. intros s. split.
  - intros _. destruct (with_test_data args); reflexivity.
  - intros _. rewrite bind_print_run. left.
Qed.
End MainCompletion.

(** ** More on the fixture, for every table model *)

Section FixtureEdges.
Context {S Id : Type}.
Variable sch : Schemas Id.
Variable db_models : Database S Id.

Lemma invalid_user_touches_nothing_run (s : S) :
  user_ok sch user_data = false ->
  create_test_data sch db_models s =
  Build_Run (Raised (ValidationError "UserCreate")) s [EvPrint MsgCreatingTestUser].
Proof.
  intros Hok. unfold create_test_data.
  assert (Huser : provision_user sch db_models s =
                  Build_Run (Raised (ValidationError "UserCreate")) s
                    [EvPrint MsgCreatingTestUser]).
  { unfold provision_user. now rewrite bind_print_run, bind_construct, Hok. }
  rewrite (bind_raised _ _ s (ValidationError "UserCreate")) by now rewrite Huser.
  now rewrite Huser.
Qed.

(** When the user's fields fail validation, [create_test_data] raises the
    validation error before it talks to the table models: nothing is
    looked up, nothing is inserted and the store is as it was. *)
Theorem invalid_user_touches_nothing (s : S) :
  user_ok sch user_data = false ->
  let r := create_test_data sch db_models s in
  outcome r = Raised (ValidationError "UserCreate") /\
  final r = s /\
  Forall (fun ev => is_model_call ev = false) (events r).
Proof.
  intros Hok. cbv zeta. rewrite (invalid_user_touches_nothing_run s Hok).
  cbn [outcome final events]. repeat split. repeat constructor.
Qed.

Lemma construct_all_fails {A} (ok : A -> bool) model (xs acc : list A) (s : S) :
  (exists x, x ∈ xs /\ ok x = false) ->
  for_append (Id := Id) xs (construct ok model) acc s =
  Build_Run (Raised (ValidationError model)) s [].
Proof.
  revert acc. induction xs as [|x xs IH]; intros acc (y & Hin & Hy).
  - inversion Hin.
  - cbn [for_append]. rewrite bind_construct.
    destruct (ok x) eqn:Hx; [|reflexivity].
    apply IH. exists y. split; trivial.
    apply elem_of_cons in Hin as [->|Hin]; [congruence|exact Hin].
Qed.

(** The three accounts are validated together, before the lookup of the
    user's accounts: when one of them fails validation the account step
    raises without a single call, so the run ends where the user step
    ended, with no account looked up or created and no position added. *)
Theorem invalid_account_creates_none (s : S) :
  (exists a, a ∈ test_accounts /\ account_ok sch a = false) ->
  let r := create_test_data sch db_models s in
  outcome r = match outcome (provision_user sch db_models s) with
              | Returned _ => Raised (ValidationError "AccountCreate")
              | ended => ended
              end /\
  final r = final (provision_user sch db_models s) /\
  events r = events (provision_user sch db_models s).
Proof.
  intros Hbad. cbv zeta. unfold create_test_data.
  assert (Hacc : forall s1,
             provision_accounts sch db_models s1 =
             Build_Run (Raised (ValidationError "AccountCreate")) s1 []).
  { intros s1. unfold provision_accounts.
    rewrite (bind_raised _ _ s1 (ValidationError "AccountCreate"))
      by now rewrite (construct_all_fails _ _ _ _ _ Hbad).
    now rewrite (construct_all_fails _ _ _ _ _ Hbad). }
  rewrite outcome_bind, final_bind, events_bind.
  destruct (outcome (provision_user sch db_models s)) as [[]| |];
    rewrite ?app_nil_r; auto.
  rewrite (bind_raised _ _ _ (ValidationError "AccountCreate")) by now rewrite Hacc.
  rewrite Hacc. cbn [outcome final events]. now rewrite app_nil_r.
Qed.

Lemma provision_user_kinds :
  emits (fun ev => is_create_account ev = false /\ is_add_position ev = false)
        (provision_user sch db_models).
Proof. unfold provision_user. repeat emits_step; split; reflexivity. Qed.

Lemma provision_accounts_kinds :
  emits (fun ev => is_create_user ev = false /\ is_add_position ev = false)
        (provision_accounts sch db_models).
Proof. unfold provision_accounts. repeat emits_step; split; reflexivity. Qed.

Lemma provision_positions_kinds (ids : list Id) :
  emits (fun ev => is_create_user ev = false /\ is_create_account ev = false)
        (provision_positions sch db_models ids).
Proof. unfold provision_positions. repeat emits_step; split; reflexivity. Qed.

(** Rows are inserted in the order of their foreign keys: in every run the
    user is created before any account and every account before any
    position, whatever the table models answer. *)
Theorem inserts_follow_dependencies (s : S) :
  exists user_part account_part position_part,
    events (create_test_data sch db_models s) =
      user_part ++ account_part ++ position_part /\
    Forall (fun ev => is_create_account ev = false /\ is_add_position ev = false)
           user_part /\
    Forall (fun ev => is_create_user ev = false /\ is_add_position ev = false)
           account_part /\
    Forall (fun ev => is_create_user ev = false /\ is_create_account ev = false)
           position_part.
Proof.
  unfold create_test_data. rewrite events_bind.
  exists (events (provision_user sch db_models s)).
  destruct (outcome (provision_user sch db_models s)) as [[]| |].
  - rewrite events_bind.
    exists (events (provision_accounts sch db_models
                      (final (provision_user sch db_models s)))).
    eexists. split; [reflexivity|].
    split; [apply provision_user_kinds|]. split; [apply provision_accounts_kinds|].
    destruct (outcome (provision_accounts sch db_models _)); [|constructor|constructor].
    apply provision_positions_kinds.
  - exists [], []. split; [reflexivity|].
    split; [apply provision_user_kinds|]. split; constructor.
  - exists [], []. split; [reflexivity|].
    split; [apply provision_user_kinds|]. split; constructor.
Qed.

(** [create_test_data] only prints and calls the table models: it runs no
    SQL statement of its own, starts no process and never ends the
    interpreter with [sys.exit]. *)
Theorem create_test_data_stays_in_models (s : S) :
  Forall (fun ev => is_print ev || is_model_call ev = true)
         (events (create_test_data sch db_models s)) /\
  forall code, outcome (create_test_data sch db_models s) <> Exited code.
Proof.
  split; [apply create_test_data_emits|].
  intros code. apply create_test_data_never_exits.
Qed.
End FixtureEdges.

Section FixtureBatches.
Context {S Id : Type}.
Variable sch : Schemas Id.
Variable db_models : Database S Id.

Lemma how_many_app (kind : Event Id -> bool) (evs1 evs2 : list (Event Id)) :
  how_many kind (evs1 ++ evs2) = (how_many kind evs1 + how_many kind evs2)%nat.
Proof. unfold how_many. now rewrite List.filter_app, List.length_app. Qed.

Lemma how_many_none (kind : Event Id -> bool) (evs : list (Event Id)) :
  Forall (fun ev => kind ev = false) evs -> how_many kind evs = 0%nat.
Proof.
  unfold how_many. induction 1 as [|ev evs Hev _ IH]; cbn; trivial.
  now rewrite Hev.
Qed.

(** A loop whose body makes at most one call of a kind, and exactly one
    when it returns, makes at most one such call per element, and exactly
    one per element when the loop returns. *)
Lemma for_append_how_many {A B} (kind : Event Id -> bool)
      (xs : list A) (body : A -> M S Id B) (acc : list B) (s : S) :
  (forall x s1,
     (how_many kind (events (body x s1)) <= 1)%nat /\
     (forall b, outcome (body x s1) = Returned b ->
                how_many kind (events (body x s1)) = 1%nat)) ->
  (how_many kind (events (for_append xs body acc s)) <= length xs)%nat /\
  (forall l, outcome (for_append xs body acc s) = Returned l ->
             how_many kind (events (for_append xs body acc s)) = length xs).
Proof.
  intros Hbody. revert acc s. induction xs as [|x xs IH]; intros acc s.
  - cbn. split; [unfold how_many; cbn; lia|reflexivity].
  - cbn [for_append length]. rewrite events_bind, outcome_bind, how_many_app.
    destruct (Hbody x s) as [Hle Heq].
    destruct (outcome (body x s)) as [b| |] eqn:Hout.
    + destruct (IH (acc ++ [b]) (final (body x s))) as [IHle IHeq].
      rewrite (Heq b eq_refl). split; [lia|].
      intros l Hl. now rewrite (IHeq l Hl).
    + split; [|discriminate]. change (how_many kind []) with 0%nat. lia.
    + split; [|discriminate]. change (how_many kind []) with 0%nat. lia.
Qed.

Lemma for_each_how_many {A} (kind : Event Id -> bool)
      (xs : list A) (body : A -> M S Id unit) (s : S) :
  (forall x s1,
     (how_many kind (events (body x s1)) <= 1)%nat /\
     (outcome (body x s1) = Returned tt ->
      how_many kind (events (body x s1)) = 1%nat)) ->
  (how_many kind (events (for_each xs body s)) <= length xs)%nat /\
  (outcome (for_each xs body s) = Returned tt ->
   how_many kind (events (for_each xs body s)) = length xs).
Proof.
  intros Hbody. revert s. induction xs as [|x xs IH]; intros s.
  - cbn. split; [unfold how_many; cbn; lia|reflexivity].
  - cbn [for_each length]. rewrite events_bind, outcome_bind, how_many_app.
    destruct (Hbody x s) as [Hle Heq].
    destruct (outcome (body x s)) as [[]| |] eqn:Hout.
    + destruct (IH (final (body x s))) as [IHle IHeq].
      rewrite (Heq eq_refl). split; [lia|].
      intros Hl. now rewrite (IHeq Hl).
    + split; [|discriminate]. change (how_many kind []) with 0%nat. lia.
    + split; [|discriminate]. change (how_many kind []) with 0%nat. lia.
Qed.

Lemma construct_all {A} (ok : A -> bool) model (xs acc : list A) (s : S) :
  exists o : Outcome (list A),
    for_append (Id := Id) xs (construct ok model) acc s = Build_Run o s [] /\
    (forall l, o = Returned l -> length l = (length acc + length xs)%nat).
Proof.
  revert acc. induction xs as [|x xs IH]; intros acc.
  - exists (Returned acc). split; [reflexivity|]. intros l [= <-]. cbn. lia.
  - cbn [for_append]. rewrite bind_construct. destruct (ok x).
    + destruct (IH (acc ++ [x])) as (o & -> & Hlen). exists o. split; trivial.
      intros l Hl. rewrite (Hlen l Hl), length_app. cbn. lia.
    + eexists. split; [reflexivity|]. discriminate.
Qed.

Lemma provision_user_creates (s : S) :
  (how_many is_create_user (events (provision_user sch db_models s)) <= 1)%nat.
Proof.
  unfold provision_user. rewrite bind_print_run, bind_construct.
  destruct (user_ok sch user_data); [|unfold how_many; cbn; lia].
  destruct (find_by_clerk_id (users db_models) "test_user_001" s)
    as [[[u|]|e] s1] eqn:Hfind.
  - rewrite (bind_call_success _ _ _ _ _ _ Hfind). unfold how_many. cbn. lia.
  - rewrite (bind_call_success _ _ _ _ _ _ Hfind). cbv zeta.
    rewrite events_bind, call_events.
    destruct (outcome (call _ _ s1)); unfold how_many; cbn; lia.
  - rewrite (bind_call_failure _ _ _ _ _ _ Hfind). unfold how_many. cbn. lia.
Qed.

Lemma provision_accounts_creates (s : S) :
  (how_many is_create_account (events (provision_accounts sch db_models s)) <= 3)%nat /\
  (forall ids, outcome (provision_accounts sch db_models s) = Returned ids ->
     how_many is_create_account (events (provision_accounts sch db_models s)) = 0%nat \/
     how_many is_create_account (events (provision_accounts sch db_models s)) = 3%nat).
Proof.
  unfold provision_accounts.
  destruct (construct_all (account_ok sch) "AccountCreate" test_accounts [] s)
    as (o & Hrun & Hlen).
  rewrite events_bind, outcome_bind, Hrun. cbn [outcome final events app].
  destruct o as [accounts_list| |];
    [|split; [unfold how_many; cbn; lia|discriminate]
     |split; [unfold how_many; cbn; lia|discriminate]].
  specialize (Hlen accounts_list eq_refl). cbn in Hlen.
  destruct (find_by_user (accounts db_models) "test_user_001" s)
    as [[[|row rows]|e] s1] eqn:Hfind.
  - rewrite (bind_call_success _ _ _ _ _ _ Hfind). cbn [outcome events].
    match goal with
    | |- context [for_append accounts_list ?body [] s1] =>
        destruct (for_append_how_many is_create_account accounts_list body [] s1)
          as [Hle Heq]
    end.
    { intros a s2. cbv zeta. rewrite events_bind, call_events, outcome_bind.
      destruct (outcome (call _ _ s2)); unfold how_many; cbn; split; auto. }
    rewrite Hlen in Hle, Heq.
    change (how_many is_create_account (EvFindByUser "test_user_001" :: ?l))
      with (how_many is_create_account l).
    split; [exact Hle|]. intros ids Hids. right. now apply Heq with ids.
  - rewrite (bind_call_success _ _ _ _ _ _ Hfind).
    split; [unfold how_many; cbn; lia|]. intros ids _. left. reflexivity.
  - rewrite (bind_call_failure _ _ _ _ _ _ Hfind).
    split; [unfold how_many; cbn; lia|discriminate].
Qed.

Lemma provision_positions_adds (ids : list Id) (s : S) :
  (how_many is_add_position (events (provision_positions sch db_models ids s)) <= 5)%nat /\
  (outcome (provision_positions sch db_models ids s) = Returned tt ->
     how_many is_add_position (events (provision_positions sch db_models ids s)) = 0%nat \/
     how_many is_add_position (events (provision_positions sch db_models ids s)) = 5%nat).
Proof.
  destruct ids as [|a rest]; cbn [provision_positions].
  { split; [unfold how_many; cbn; lia|]. now left. }
  destruct (find_by_account (positions db_models) a s) as [[[|p ps]|e] s1] eqn:Hfind.
  - rewrite (bind_call_success _ _ _ _ _ _ Hfind). cbn [outcome events].
    match goal with
    | |- context [for_each test_positions ?body s1] =>
        destruct (for_each_how_many is_add_position test_positions body s1)
          as [Hle Heq]
    end.
    { intros [sym q] s2. rewrite bind_construct.
      destruct (position_ok sch _).
      - rewrite events_bind, call_events, outcome_bind.
        destruct (outcome (call _ _ s2)); unfold how_many; cbn; split; auto.
      - unfold how_many. cbn. split; [lia|discriminate]. }
    change (how_many is_add_position (EvFindByAccount a :: ?l))
      with (how_many is_add_position l).
    split; [exact Hle|]. intros Hout. right. now apply Heq.
  - rewrite (bind_call_success _ _ _ _ _ _ Hfind).
    split; [unfold how_many; cbn; lia|]. now left.
  - rewrite (bind_call_failure _ _ _ _ _ _ Hfind).
    split; [unfold how_many; cbn; lia|discriminate].
Qed.
Lemma create_test_data_counts (kind : Event Id -> bool) (s : S) :
  how_many kind (events (create_test_data sch db_models s)) =
  (how_many kind (events (provision_user sch db_models s)) +
   match outcome (provision_user sch db_models s) with
   | Returned _ =>
       let s1 := final (provision_user sch db_models s) in
       how_many kind (events (provision_accounts sch db_models s1)) +
       match outcome (provision_accounts sch db_models s1) with
       | Returned ids =>
           how_many kind
             (events (provision_positions sch db_models ids
                        (final (provision_accounts sch db_models s1))))
       | _ => 0
       end
   | _ => 0
   end)%nat.
Proof.
  unfold create_test_data. rewrite events_bind, how_many_app.
  destruct (outcome (provision_user sch db_models s)); trivial.
  cbv zeta. rewrite events_bind, how_many_app.
  destruct (outcome (provision_accounts sch db_models _)); trivial.
Qed.

(** One run of [create_test_data] asks for at most one user, three
    accounts and five positions to be inserted, whatever the table models
    answer and however the run ends. *)
Theorem fixture_batch_bounds (s : S) :
  let evs := events (create_test_data sch db_models s) in
  (how_many is_create_user evs <= 1)%nat /\
  (how_many is_create_account evs <= 3)%nat /\
  (how_many is_add_position evs <= 5)%nat.
Proof.
  cbv zeta. rewrite !create_test_data_counts.
  pose proof (provision_user_creates s) as Hu.
  set (s1 := final (provision_user sch db_models s)).
  destruct (provision_accounts_creates s1) as [Ha _].
  rewrite (how_many_none is_create_account (events (provision_user sch db_models s)))
    by (eapply Forall_impl; [apply provision_user_kinds|]; now intros ev [H _]).
  rewrite (how_many_none is_add_position (events (provision_user sch db_models s)))
    by (eapply Forall_impl; [apply provision_user_kinds|]; now intros ev [_ H]).
  destruct (outcome (provision_user sch db_models s)) as [[]| |]; cbv zeta; fold s1;
    [|lia|lia].
  rewrite (how_many_none is_create_user (events (provision_accounts sch db_models s1)))
    by (eapply Forall_impl; [apply provision_accounts_kinds|]; now intros ev [H _]).
  rewrite (how_many_none is_add_position (events (provision_accounts sch db_models s1)))
    by (eapply Forall_impl; [apply provision_accounts_kinds|]; now intros ev [_ H]).
  destruct (outcome (provision_accounts sch db_models s1)) as [ids| |]; [|lia|lia].
  set (s2 := final (provision_accounts sch db_models s1)).
  destruct (provision_positions_adds ids s2) as [Hp _].
  rewrite (how_many_none is_create_user (events (provision_positions sch db_models ids s2)))
    by (eapply Forall_impl; [apply provision_positions_kinds|]; now intros ev [H _]).
  rewrite (how_many_none is_create_account
             (events (provision_positions sch db_models ids s2)))
    by (eapply Forall_impl; [apply provision_positions_kinds|]; now intros ev [_ H]).
  lia.
Qed.

(** A run of [create_test_data] that returns has created either none or
    all three of the accounts, and either none or all five of the
    positions: a partly created batch is only ever left by a run that
    raised. *)
Theorem returned_fixture_batches_are_whole (s : S) :
  outcome (create_test_data sch db_models s) = Returned tt ->
  let evs := events (create_test_data sch db_models s) in
  (how_many is_create_account evs = 0%nat \/ how_many is_create_account evs = 3%nat) /\
  (how_many is_add_position evs = 0%nat \/ how_many is_add_position evs = 5%nat).
Proof.
  cbv zeta. rewrite !create_test_data_counts.
  unfold create_test_data. rewrite outcome_bind.
  set (s1 := final (provision_user sch db_models s)).
  rewrite (how_many_none is_create_account (events (provision_user sch db_models s)))
    by (eapply Forall_impl; [apply provision_user_kinds|]; now intros ev [H _]).
  rewrite (how_many_none is_add_position (events (provision_user sch db_models s)))
    by (eapply Forall_impl; [apply provision_user_kinds|]; now intros ev [_ H]).
  destruct (outcome (provision_user sch db_models s)) as [[]| |]; [|discriminate..].
  cbv zeta. fold s1. rewrite outcome_bind.
  destruct (provision_accounts_creates s1) as [_ Ha].
  rewrite (how_many_none is_add_position (events (provision_accounts sch db_models s1)))
    by (eapply Forall_impl; [apply provision_accounts_kinds|]; now intros ev [_ H]).
  destruct (outcome (provision_accounts sch db_models s1)) as [ids| |];
    [|discriminate..].
  specialize (Ha ids eq_refl).
  set (s2 := final (provision_accounts sch db_models s1)).
  destruct (provision_positions_adds ids s2) as [_ Hp].
  rewrite (how_many_none is_create_account
             (events (provision_positions sch db_models ids s2)))
    by (eapply Forall_impl; [apply provision_positions_kinds|]; now intros ev [_ H]).
  intros Hout. specialize (Hp Hout). cbn [Nat.add]. rewrite Nat.add_0_r.
  split; [exact Ha|exact Hp].
Qed.
End FixtureBatches.

(** ** More on the fixture, on the reference store *)

Section PositionsOnStore.
Variables years_min years_max : Z.

Local Abbreviation sch := (Store.schemas years_min years_max).
Local Abbreviation dbm := Store.db_models.
Local Abbreviation K := "test_user_001".

(** The position check is existence-only as well: when the first account of
    the test user already holds a position, were it a single one,
    [create_test_data] adds none of the five and leaves the positions table
    as it was. *)
Theorem existing_position_blocks_creation (s : Store.t) row rows :
  Store.accounts_of K s = row :: rows ->
  Store.positions_of (id row) s ≠ [] ->
  let r := create_test_data sch dbm s in
  Forall (fun ev => is_add_position ev = false) (events r) /\
  Store.positions_table (final r) = Store.positions_table s.
Proof.
  intros Hacc Hsome. cbv zeta.
  destruct (user_ok sch user_data) eqn:Hok.
  - destruct (provision_user_post years_min years_max s Hok)
      as (s1 & evs1 & Hrun1 & _ & Hat1 & Hpt1 & _ & _).
    assert (Hacc1 : Store.accounts_of K s1 = row :: rows).
    { unfold Store.accounts_of in *. now rewrite Hat1. }
    assert (Hpos1 : Store.positions_of (id row) s1 = Store.positions_of (id row) s).
    { unfold Store.positions_of. now rewrite Hpt1. }
    destruct (Store.positions_of (id row) s) as [|p ps] eqn:Hps; [contradiction|].
    assert (Hrun : create_test_data sch dbm s =
                   Build_Run (Returned tt) s1
                     (evs1 ++
                      [EvFindByUser K; EvPrint (MsgHasAccounts (length (row :: rows)))] ++
                      [EvFindByAccount (id row);
                       EvPrint (MsgHasPositions (length (p :: ps)))])).
    { unfold create_test_data. eapply run_bind; [exact Hrun1|].
      eapply run_bind;
        [apply (provision_accounts_found years_min years_max s1 row rows Hacc1)|].
      apply (provision_positions_found years_min years_max s1 (id row) (map id rows)
               p ps Hpos1). }
    rewrite Hrun. cbn [events final]. split; [|exact Hpt1].
    apply Forall_app. split; [|repeat constructor].
    assert (Hev : Forall (fun ev => is_add_position ev = false)
                    (events (provision_user sch dbm s))).
    { eapply Forall_impl; [apply provision_user_kinds|]. now intros ev [_ H]. }
    now rewrite Hrun1 in Hev.
  - rewrite (invalid_user_touches_nothing_run sch dbm s Hok). cbn [events final].
    split; [repeat constructor|reflexivity].
Qed.

(** Positions go to whichever account the lookup lists first.  When the
    test user already owns accounts and the first of them holds no
    position, [create_test_data] creates no account and adds the five
    positions to that existing account, in the fixed order. *)
Theorem positions_join_existing_account (s : Store.t) row rows :
  years_min ≤ 25 ≤ years_max ->
  Store.accounts_of K s = row :: rows ->
  Store.positions_of (id row) s = [] ->
  let r := create_test_data sch dbm s in
  outcome r = Returned tt /\
  Store.accounts_table (final r) = Store.accounts_table s /\
  Store.positions_table (final r) =
    Store.positions_table s ++ map (test_position (id row)) test_positions.
Proof.
  intros Hyears Hacc Hnone. cbv zeta.
  pose proof (user_data_valid years_min years_max Hyears) as Hok.
  destruct (provision_user_post years_min years_max s Hok)
    as (s1 & evs1 & Hrun1 & _ & Hat1 & Hpt1 & _ & _).
  assert (Hacc1 : Store.accounts_of K s1 = row :: rows).
  { unfold Store.accounts_of in *. now rewrite Hat1. }
  assert (Hpos1 : Store.positions_of (id row) s1 = []).
  { unfold Store.positions_of in *. now rewrite Hpt1. }
  assert (Hrun : create_test_data sch dbm s =
                 Build_Run (Returned tt) (with_test_positions (id row) s1)
                   (evs1 ++
                    [EvFindByUser K; EvPrint (MsgHasAccounts (length (row :: rows)))] ++
                    EvFindByAccount (id row) ::
                    flat_map (fun sq => [EvAddPosition (test_position (id row) sq);
                                         EvPrint (MsgAddedPosition sq.2 sq.1)])
                             test_positions)).
  { unfold create_test_data. eapply run_bind; [exact Hrun1|].
    eapply run_bind;
      [apply (provision_accounts_found years_min years_max s1 row rows Hacc1)|].
    apply (provision_positions_added years_min years_max s1 (id row) (map id rows) Hpos1).
    apply (account_rows_of_owned s1 K row rows Hacc1). }
  rewrite Hrun. cbn [outcome final]. split; [reflexivity|]. split; [exact Hat1|].
  unfold with_test_positions, test_positions.
  cbn [foldl Store.insert_position Store.positions_table map].
  rewrite Hpt1, <- !app_assoc. reflexivity.
Qed.
End PositionsOnStore.

(** ** The summary line and the record counts *)

Section SubstringTest.

Lemma append_cons (a : Ascii.ascii) (s1 s2 : string) :
  String a s1 +:+ s2 = String a (s1 +:+ s2).
Proof. reflexivity. Qed.

Lemma append_empty (s2 : string) : "" +:+ s2 = s2.
Proof. reflexivity. Qed.

Lemma prefix_spec (needle : string) :
  forall haystack,
    String.prefix needle haystack = true <->
    exists post, haystack = needle +:+ post.
Proof.
  induction needle as [|a needle IH]; intros haystack.
  - destruct haystack; cbn; split; eauto.
  - destruct haystack as [|b haystack].
    + cbn. split; [discriminate|]. intros [post H].
      rewrite append_cons in H. discriminate H.
    + cbn. destruct (Ascii.ascii_dec a b) as [->|Hne].
      * rewrite IH. split; intros [post H]; exists post.
        -- rewrite append_cons. now rewrite H.
        -- rewrite append_cons in H. now injection H.
      * split; [discriminate|]. intros [post H].
        rewrite append_cons in H. congruence.
Qed.

(** [str_in] is the substring test of Python's [in]. *)
Lemma str_in_spec (needle : string) :
  forall haystack,
    str_in needle haystack = true <->
    exists pre post, haystack = pre +:+ needle +:+ post.
Proof.
  induction haystack as [|b haystack IH].
  - cbn [str_in]. rewrite orb_false_r, prefix_spec. split.
    + intros [post H]. exists "", post. exact H.
    + intros (pre & post & H). destruct pre as [|c pre]; [now exists post|].
      rewrite append_cons in H. discriminate H.
  - cbn [str_in]. rewrite orb_true_iff, prefix_spec, IH. split.
    + intros [[post H]|(pre & post & H)].
      * exists "", post. exact H.
      * exists (String b pre), post. rewrite append_cons. now rewrite H.
    + intros (pre & post & H). destruct pre as [|c pre].
      * left. now exists post.
      * right. rewrite append_cons in H. injection H as _ H. now exists pre, post.
Qed.
End SubstringTest.

Section SummaryAndCounts.
Context {S Id : Type}.
Variable os : Subprocess S.
Variable db : DataAPIClient S.

(** After a zero-exit load the friendlier line "Loaded 22 instruments" is
    printed exactly when the captured stdout contains the text
    ["22/22 instruments loaded"] somewhere, with anything before and after
    it; in both cases the step returns. *)
Theorem summary_line_follows_substring (s s1 : S) (cp : CompletedProcess) :
  os seed_cmd s = (Success cp, s1) ->
  returncode cp = 0 ->
  let r := load_seed_data (Id := Id) os s in
  outcome r = Returned tt /\
  final r = s1 /\
  (EvPrint MsgLoaded22 ∈ events r <->
   exists pre post, stdout cp = pre +:+ "22/22 instruments loaded" +:+ post).
Proof.
  intros Hrun Hrc. cbv zeta. unfold load_seed_data.
  rewrite bind_print_run, (bind_call_success _ _ _ _ _ _ Hrun).
  destruct (decide (returncode cp ≠ 0)) as [Hne|_]; [contradiction|].
  rewrite <- str_in_spec.
  destruct (str_in "22/22 instruments loaded" (stdout cp)); cbn [outcome final events].
  - repeat split; trivial. intros _. do 2 right. left.
  - repeat split; [|discriminate].
    intros Hin. apply list_elem_of_In in Hin. cbn in Hin.
    destruct Hin as [H|[H|[H|[]]]]; discriminate H.
Qed.

(** [result[0]['count']]: when the first row a count query returns has no
    count column, the lookup raises [KeyError] and ends the verification
    before a line is printed for any table. *)
Theorem missing_count_column_raises (s s1 : S) row more :
  query db (count_sql "users") s = (Success (row :: more), s1) ->
  row !! "count" = None ->
  final_verification (Id := Id) db s =
  Build_Run (Raised (KeyError "count")) s1
    [EvPrint MsgFinalVerification; EvQuery (count_sql "users")].
Proof.
  intros Hq Hrow. unfold final_verification, tables.
  rewrite bind_print_run. cbn [for_each].
  assert (Hone : (result <- call (Id := Id) (EvQuery (count_sql "users"))
                              (query db (count_sql "users")) ;;
                  count <- lift (first_count result) ;;
                  print (MsgCount "users" count)) s =
                 Build_Run (Raised (KeyError "count")) s1 [EvQuery (count_sql "users")]).
  { rewrite (bind_call_success _ _ _ _ _ _ Hq). cbn [first_count]. now rewrite Hrow. }
  rewrite (bind_raised _ _ s (KeyError "count")) by now rewrite Hone.
  now rewrite Hone.
Qed.

Lemma count_lines_run (answer : string -> S -> Z) (ts : list string) (s : S) :
  (forall t s0, exists row more,
      query db (count_sql t) s0 = (Success (row :: more), s0) /\
      row !! "count" = Some (answer t s0)) ->
  for_each (Id := Id) ts (count_line_of db) s =
  Build_Run (Returned tt) s
    (flat_map (fun t => [EvQuery (count_sql t); EvPrint (MsgCount t (answer t s))]) ts).
Proof.
  intros Hdb. induction ts as [|t ts IH]; [reflexivity|].
  cbn [for_each flat_map]. destruct (Hdb t s) as (row & more & Hq & Hrow).
  eapply run_bind; [|exact IH].
  unfold count_line_of. rewrite (bind_call_success _ _ _ _ _ _ Hq).
  cbn [first_count]. now rewrite Hrow.
Qed.

(** On a database that answers every count query with at least one row
    carrying a count and leaves the store alone, the verification returns,
    leaves the store as it found it and prints exactly one line per tracked
    table, in the order users, instruments, accounts, positions, jobs, with
    the count of the first row; further rows are ignored. *)
Theorem verification_reports_first_rows (answer : string -> S -> Z) (s : S) :
  (forall t s0, exists row more,
      query db (count_sql t) s0 = (Success (row :: more), s0) /\
      row !! "count" = Some (answer t s0)) ->
  final_verification (Id := Id) db s =
  Build_Run (Returned tt) s
    [EvPrint MsgFinalVerification;
     EvQuery (count_sql "users"); EvPrint (MsgCount "users" (answer "users" s));
     EvQuery (count_sql "instruments");
     EvPrint (MsgCount "instruments" (answer "instruments" s));
     EvQuery (count_sql "accounts"); EvPrint (MsgCount "accounts" (answer "accounts" s));
     EvQuery (count_sql "positions");
     EvPrint (MsgCount "positions" (answer "positions" s));
     EvQuery (count_sql "jobs"); EvPrint (MsgCount "jobs" (answer "jobs" s))].
Proof.
  intros Hdb.
  change (final_verification db) with
    (print (S := S) (Id := Id) MsgFinalVerification ;;; for_each tables (count_line_of db)).
  rewrite bind_print_run, (count_lines_run answer tables s Hdb). reflexivity.
Qed.
End SummaryAndCounts.

(** ** A reset that goes through *)

Section ResetGoesThrough.
Context {S Id : Type}.
Variable os : Subprocess S.
Variable db : DataAPIClient S.
Variable db_models : Database S Id.
Variable sch : Schemas Id.

(** When the migrations and the seed loader both exit with status 0, each
    step of a full reset works on the store the step before it left: the
    migrations start in the store after the drops, the seed loader in the
    store after the migrations, and the test data and the record counts
    take over in the store after the seed load; the run then ends the way
    these last steps end. *)
Theorem reset_hands_over_to_fixture (args : Args) (s s1 s2 : S) (cp1 cp2 : CompletedProcess) :
  skip_drop args = false ->
  os migrate_cmd (final (drop_all_tables (Id := Id) db s)) = (Success cp1, s1) ->
  returncode cp1 = 0 ->
  os seed_cmd s1 = (Success cp2, s2) ->
  returncode cp2 = 0 ->
  let r := main os db db_models sch args s in
  let rest := fixture_onwards db db_models sch args s2 in
  outcome r = outcome rest /\
  final r = final rest /\
  events r =
    [EvPrint MsgBanner; EvPrint MsgRule] ++
    events (drop_all_tables (Id := Id) db s) ++
    [EvPrint MsgRunningMigrations; EvRun migrate_cmd; EvPrint MsgMigrationsCompleted;
     EvPrint MsgLoadingSeed; EvRun seed_cmd;
     EvPrint (if str_in "22/22 instruments loaded" (stdout cp2)
              then MsgLoaded22 else MsgSeedLoaded)] ++
    events rest.
Proof.
  intros Hskip Hmig Hrc1 Hseed Hrc2. cbv zeta.
  assert (Hdm : drop_and_migrate (Id := Id) os db args s =
                Build_Run (Returned tt) s1
                  (events (drop_all_tables (Id := Id) db s) ++
                   [EvPrint MsgRunningMigrations; EvRun migrate_cmd;
                    EvPrint MsgMigrationsCompleted])).
  { unfold drop_and_migrate. rewrite Hskip. cbn [negb].
    rewrite (bind_returned _ _ s tt) by apply drop_all_tables_run.
    rewrite bind_print_run, (bind_call_success _ _ _ _ _ _ Hmig).
    destruct (decide (returncode cp1 ≠ 0)) as [Hne|_]; [contradiction|reflexivity]. }
  assert (Hload : load_seed_data (Id := Id) os s1 =
                  Build_Run (Returned tt) s2
                    [EvPrint MsgLoadingSeed; EvRun seed_cmd;
                     EvPrint (if str_in "22/22 instruments loaded" (stdout cp2)
                              then MsgLoaded22 else MsgSeedLoaded)]).
  { unfold load_seed_data. rewrite bind_print_run, (bind_call_success _ _ _ _ _ _ Hseed).
    destruct (decide (returncode cp2 ≠ 0)) as [Hne|_]; [contradiction|].
    destruct (str_in _ _); reflexivity. }
  assert (Hbefore : before_fixture (Id := Id) os db args s =
                    Build_Run (Returned tt) s2
                      ((EvPrint MsgBanner :: EvPrint MsgRule ::
                        events (drop_all_tables (Id := Id) db s) ++
                        [EvPrint MsgRunningMigrations; EvRun migrate_cmd;
                         EvPrint MsgMigrationsCompleted]) ++
                       [EvPrint MsgLoadingSeed; EvRun seed_cmd;
                        EvPrint (if str_in "22/22 instruments loaded" (stdout cp2)
                                 then MsgLoaded22 else MsgSeedLoaded)])).
  { unfold before_fixture. rewrite !bind_print_run.
    rewrite (run_bind _ _ s tt s1 _ _ _ _ Hdm Hload). reflexivity. }
  rewrite main_from_fixture, (bind_returned _ _ s tt) by now rewrite Hbefore.
  rewrite Hbefore. cbn [outcome final events]. repeat split.
  cbn [app]. rewrite <- !app_assoc. reflexivity.
Qed.
End ResetGoesThrough.

(** ** The further properties on concrete runs *)

(** A full reset whose seed loader exits with status 2. *)
Lemma seed_failure_is_fatal_witness :
  returncode {| returncode := 2; stdout := ""; stderr := "instruments.json not found" |} ≠ 0 /\
  outcome (main Cases.os_failed_seed Scenario.client Store.db_models
             (Store.schemas 0 50) Scenario.full_reset (Store.empty 0)) = Exited 1.
Proof.
  assert (Hrc : returncode {| returncode := 2; stdout := "";
                              stderr := "instruments.json not found" |} ≠ 0)
    by (cbn; lia).
  split; [exact Hrc|].
  refine (proj1 (seed_failure_is_fatal Cases.os_failed_seed Scenario.client
                   Store.db_models (Store.schemas 0 50) Scenario.full_reset
                   (Store.empty 0) (Store.empty 0) _ _ _ Hrc)).
  - vm_compute. reflexivity.
  - vm_compute. reflexivity.
Defined.

(** A reload on a machine without [uv]. *)
Lemma seed_launch_error_propagates_witness :
  outcome (before_seed (Id := nat) Cases.os_without_uv Scenario.client
             Scenario.reload_only (Store.empty 0)) = Returned tt /\
  outcome (main Cases.os_without_uv Scenario.client Store.db_models
             (Store.schemas 0 50) Scenario.reload_only (Store.empty 0)) =
  Raised (OSError "No such file or directory: uv").
Proof.
  split; [reflexivity|].
  refine (proj1 (seed_launch_error_propagates Cases.os_without_uv Scenario.client
                   Store.db_models (Store.schemas 0 50) Scenario.reload_only
                   (Store.empty 0) (Store.empty 0) _ _ _)).
  - reflexivity.
  - reflexivity.
Defined.

(** The exit of a run whose migrations failed. *)
Lemma main_exits_only_with_one_witness :
  outcome (main Scenario.os_failed_migration Scenario.client Store.db_models
             (Store.schemas 0 50) Scenario.full_reset (Store.empty 0)) = Exited 1 /\
  (EvPrint MsgMigrationFailed
     ∈ events (main Scenario.os_failed_migration Scenario.client Store.db_models
                 (Store.schemas 0 50) Scenario.full_reset (Store.empty 0)) \/
   EvPrint MsgSeedFailed
     ∈ events (main Scenario.os_failed_migration Scenario.client Store.db_models
                 (Store.schemas 0 50) Scenario.full_reset (Store.empty 0))).
Proof.
  assert (H : outcome (main Scenario.os_failed_migration Scenario.client Store.db_models
                         (Store.schemas 0 50) Scenario.full_reset (Store.empty 0)) =
              Exited 1) by (vm_compute; reflexivity).
  split; [exact H|].
  exact (proj2 (main_exits_only_with_one Scenario.os_failed_migration Scenario.client
                  Store.db_models (Store.schemas 0 50) Scenario.full_reset
                  (Store.empty 0) 1 H)).
Defined.

(** A reset without [--with-test-data]. *)
Lemma no_test_data_without_flag_witness :
  with_test_data Cases.no_test_data = false /\
  Forall (fun ev : Event nat => is_model_call ev = false /\
                                 is_fixture_line ev = false /\
                                 is_test_user_summary ev = false)
    (events (main Scenario.os_ok Scenario.client Store.db_models
               (Store.schemas 0 50) Cases.no_test_data (Store.empty 0))).
Proof.
  split; [reflexivity|].
  exact (no_test_data_without_flag Scenario.os_ok Scenario.client Store.db_models
           (Store.schemas 0 50) Cases.no_test_data (Store.empty 0) eq_refl).
Defined.

(** The drops of a run whose migrations then fail. *)
Lemma drops_come_first_witness :
  skip_drop Scenario.full_reset = false /\
  executed (events (main Scenario.os_failed_migration Scenario.client Store.db_models
                      (Store.schemas 0 50) Scenario.full_reset (Store.empty 0))) =
  map drop_table_sql tables_to_drop ++ [drop_function_sql].
Proof.
  split; [reflexivity|].
  exact (proj1 (drops_come_first Scenario.os_failed_migration Scenario.client
                  Store.db_models (Store.schemas 0 50) Scenario.full_reset
                  (Store.empty 0) eq_refl)).
Defined.

(** A reload with unreachable table models. *)
Lemma fixture_error_propagates_witness :
  with_test_data Scenario.reload_only = true /\
  outcome (main Scenario.os_ok Scenario.client Cases.models_down
             (Store.schemas 0 50) Scenario.reload_only (Store.empty 0)) =
  Raised (DatabaseError "connection refused").
Proof.
  split; [reflexivity|].
  refine (proj1 (fixture_error_propagates Scenario.os_ok Scenario.client
                   Cases.models_down (Store.schemas 0 50) Scenario.reload_only
                   (Store.empty 0) (DatabaseError "connection refused") eq_refl _ _)).
  - vm_compute. reflexivity.
  - vm_compute. reflexivity.
Defined.

(** Schemas that allow 30 to 50 years: the test user's 25 do not pass. *)
Lemma invalid_user_touches_nothing_witness :
  user_ok (Store.schemas 30 50) user_data = false /\
  final (create_test_data (Store.schemas 30 50) Store.db_models Scenario.partial_store) =
  Scenario.partial_store.
Proof.
  split; [reflexivity|].
  exact (proj1 (proj2 (invalid_user_touches_nothing (Store.schemas 30 50) Store.db_models
                         Scenario.partial_store eq_refl))).
Defined.

(** Schemas that reject the 401(k) account. *)
Lemma invalid_account_creates_none_witness :
  (exists a, a ∈ test_accounts /\ account_ok Cases.low_rate_schemas a = false) /\
  events (create_test_data Cases.low_rate_schemas Store.db_models (Store.empty 0)) =
  events (provision_user Cases.low_rate_schemas Store.db_models (Store.empty 0)).
Proof.
  assert (H : exists a, a ∈ test_accounts /\ account_ok Cases.low_rate_schemas a = false).
  { exists account_401k. split; [left|reflexivity]. }
  split; [exact H|].
  exact (proj2 (proj2 (invalid_account_creates_none Cases.low_rate_schemas
                         Store.db_models (Store.empty 0) H))).
Defined.

(** The fixture on empty tables creates both batches in full. *)
Lemma returned_fixture_batches_are_whole_witness :
  outcome (create_test_data (Store.schemas 0 50) Store.db_models (Store.empty 0)) =
    Returned tt /\
  (how_many is_create_account
     (events (create_test_data (Store.schemas 0 50) Store.db_models (Store.empty 0))) = 0%nat \/
   how_many is_create_account
     (events (create_test_data (Store.schemas 0 50) Store.db_models (Store.empty 0))) = 3%nat).
Proof.
  assert (H : outcome (create_test_data (Store.schemas 0 50) Store.db_models
                         (Store.empty 0)) = Returned tt) by (vm_compute; reflexivity).
  split; [exact H|].
  exact (proj1 (returned_fixture_batches_are_whole (Store.schemas 0 50) Store.db_models
                  (Store.empty 0) H)).
Defined.

(** A single position in the first account keeps the other four out. *)
Lemma existing_position_blocks_creation_witness :
  Store.positions_of 0 Cases.store_with_one_position ≠ [] /\
  Store.positions_table
    (final (create_test_data (Store.schemas 0 50) Store.db_models
              Cases.store_with_one_position)) =
  Store.positions_table Cases.store_with_one_position.
Proof.
  assert (H : Store.positions_of 0 Cases.store_with_one_position ≠ []).
  { intros Hnil. vm_compute in Hnil. discriminate Hnil. }
  split; [exact H|].
  exact (proj2 (existing_position_blocks_creation 0 50 Cases.store_with_one_position
                  {| id := 0%nat; owner := "test_user_001"; columns := account_401k |}
                  [{| id := 1%nat; owner := "test_user_001"; columns := account_roth |};
                   {| id := 2%nat; owner := "test_user_001"; columns := account_taxable |}]
                  eq_refl H)).
Defined.

(** The store an interrupted run left: the positions join its one account. *)
Lemma positions_join_existing_account_witness :
  0 ≤ 25 ≤ 50 /\
  Store.accounts_table
    (final (create_test_data (Store.schemas 0 50) Store.db_models Scenario.partial_store)) =
  Store.accounts_table Scenario.partial_store.
Proof.
  assert (H : 0 ≤ 25 ≤ 50) by lia. split; [exact H|].
  exact (proj1 (proj2 (positions_join_existing_account 0 50 Scenario.partial_store
                         {| id := 0%nat; owner := "test_user_001"; columns := account_401k |}
                         [] H eq_refl eq_refl))).
Defined.

(** The loader that reports its 22 instruments. *)
Lemma summary_line_follows_substring_witness :
  returncode {| returncode := 0; stdout := "22/22 instruments loaded"; stderr := "" |} = 0 /\
  outcome (load_seed_data (Id := nat) Scenario.os_ok (Store.empty 0)) = Returned tt.
Proof.
  split; [reflexivity|].
  exact (proj1 (summary_line_follows_substring Scenario.os_ok
                  (Store.empty 0) (Store.empty 0)
                  {| returncode := 0; stdout := "22/22 instruments loaded"; stderr := "" |}
                  eq_refl eq_refl)).
Defined.

(** A count query whose row has a [total] column only. *)
Lemma missing_count_column_raises_witness :
  ({[ "total" := 3 ]} : gmap string Z) !! "count" = None /\
  final_verification (Id := nat) Cases.client_without_count (Store.empty 0) =
  Build_Run (Raised (KeyError "count")) (Store.empty 0)
    [EvPrint MsgFinalVerification; EvQuery (count_sql "users")].
Proof.
  assert (H : ({[ "total" := 3 ]} : gmap string Z) !! "count" = None)
    by (vm_compute; reflexivity).
  split; [exact H|].
  exact (missing_count_column_raises Cases.client_without_count
           (Store.empty 0) (Store.empty 0) {[ "total" := 3 ]} [] eq_refl H).
Defined.

(** The counts of the store an interrupted run left. *)
Lemma verification_reports_first_rows_witness :
  (forall t s0, exists row more,
      query Scenario.client (count_sql t) s0 = (Success (row :: more), s0) /\
      row !! "count" = Some (Scenario.count_rows (count_sql t) s0)) /\
  outcome (final_verification (Id := nat) Scenario.client Scenario.partial_store) =
  Returned tt.
Proof.
  assert (H : forall t s0, exists row more,
             query Scenario.client (count_sql t) s0 = (Success (row :: more), s0) /\
             row !! "count" = Some (Scenario.count_rows (count_sql t) s0)).
  { intros t s0. eexists _, _. split; [reflexivity|]. apply lookup_singleton_eq. }
  split; [exact H|].
  exact (f_equal outcome
           (verification_reports_first_rows (Id := nat) Scenario.client
              (fun t s0 => Scenario.count_rows (count_sql t) s0)
              Scenario.partial_store H)).
Defined.

(** A full reset with working child processes. *)
Lemma reset_hands_over_to_fixture_witness :
  skip_drop Scenario.full_reset = false /\
  outcome (main Scenario.os_ok Scenario.client Store.db_models
             (Store.schemas 0 50) Scenario.full_reset (Store.empty 0)) =
  outcome (fixture_onwards Scenario.client Store.db_models
             (Store.schemas 0 50) Scenario.full_reset (Store.empty 0)).
Proof.
  split; [reflexivity|].
  refine (proj1 (reset_hands_over_to_fixture Scenario.os_ok Scenario.client
                   Store.db_models (Store.schemas 0 50) Scenario.full_reset
                   (Store.empty 0) (Store.empty 0) (Store.empty 0)
                   {| returncode := 0; stdout := "22/22 instruments loaded"; stderr := "" |}
                   {| returncode := 0; stdout := "22/22 instruments loaded"; stderr := "" |}
                   eq_refl _ eq_refl _ eq_refl)).
  - vm_compute. reflexivity.
  - reflexivity.
Defined.
